(** * plumber: composition of plugin behaviours into pipelines

    A shallow embedding of [src/plumber/_plumber.py]: the declaration
    markers ([default], [extend], [plumb]), the documentation merge
    ([merge_doc]), the chain compiler ([entrance]) and the metaclass
    initialiser ([Plumber.__init__]), followed by the properties the
    specification states about them. *)

From stdpp Require Import gmap strings list fin_maps.

Open Scope string_scope.
Open Scope list_scope.

(** ** Python values *)

Definition classid := string.
Definition fid := string.

(** The three classes of the [extensiondecor] family. *)
Inductive marker := Base | Default | Extend.

(** The fragment of the Python object universe the module touches.
    Classes and user functions are referred to by name; a user function
    carries its [__doc__]. The closures that [entrance] builds are data:
    they record the two variables they close over. *)
Inductive value :=
| VNone
| VInt (z : Z)
| VStr (s : string)
| VTuple (vs : list value)
| VClass (c : classid)
| VObject (o : string) (doc : option string)
| VFunction (f : fid) (doc : option string)
| VMethod (im_func im_self : value)
| VProperty (fget fset fdel : value)
| VPlumbProperty (fget fset fdel : value)
| VPlumbMethod (f : value)
| VMarker (m : marker) (attr : value)
| VClosed
| VEntrance (plumbattr _next : value) (doc : option string)
| VGetEntrance (plumbattr _next : value)
| VSetEntrance (plumbattr _next : value)
| VDelEntrance (plumbattr _next : value).

Inductive exn :=
| PlumbingCollision (name : string)
| TypeError
| AttributeError (name : string)
| IndexError.

Inductive res (A : Type) :=
| Ok (a : A)
| Err (e : exn).
Arguments Ok {A} a.
Arguments Err {A} e.

Definition bind {A B} (m : res A) (k : A -> res B) : res B :=
  match m with
  | Ok a => k a
  | Err e => Err e
  end.

Notation "'do' x <- m ; k" := (bind m (fun x => k))
  (at level 10, x name, m at level 100, k at level 200).

(** ** Declaration markers *)

(** [extensiondecor.unwrap] *)
Fixpoint unwrap (attr : value) : value :=
  match attr with
  | VMarker _ a => unwrap a
  | _ => attr
  end.

(** [extensiondecor.__init__]: the constructor of the three marker classes. *)
Definition extensiondecor (m : marker) (attr : value) : value :=
  VMarker m (unwrap attr).

Definition default_ (attr : value) : value := extensiondecor Default attr.
Definition extend (attr : value) : value := extensiondecor Extend attr.

Definition marker_attr (v : value) : option value :=
  match v with
  | VMarker _ a => Some a
  | _ => None
  end.

Definition is_marker (v : value) : bool :=
  match v with
  | VMarker _ _ => true
  | _ => false
  end.

(** [type(attr) is types.FunctionType]: user functions and the closures
    defined with [def] inside [entrance]. *)
Definition is_function (v : value) : bool :=
  match v with
  | VFunction _ _ | VEntrance _ _ _
  | VGetEntrance _ _ | VSetEntrance _ _ | VDelEntrance _ _ => true
  | _ => false
  end.

(** [type(attr) is property]: the exact type, not a subclass. *)
Definition is_exact_property (v : value) : bool :=
  match v with
  | VProperty _ _ _ => true
  | _ => false
  end.

(** [plumb] *)
Definition plumb (attr : value) : res value :=
  match attr with
  | VProperty fget fset fdel => Ok (VPlumbProperty fget fset fdel)
  | _ => if is_function attr then Ok (VPlumbMethod attr) else Err TypeError
  end.

(** ** Classes *)

(** A class: its own [__dict__], the classes after it in its method
    resolution order, and the attributes that its metaclass and the
    classes behind that provide to it, as they are handed out for the
    class ([type.__call__], [type.mro], [type.__subclasses__], ... for
    a class made by [type] or by [Plumber]). The classes that exist
    before the composed class is built (plugins, bases) are kept in a
    read-only table. *)
Record pyclass := PyClass {
  cdict : gmap string value;
  cmro : list classid;
  cmeta : gmap string value
}.

(** What attribute lookup on a class consults besides the class's own
    dictionary. *)
Definition cenv (cls : pyclass) : list classid * gmap string value :=
  (cmro cls, cmeta cls).

Definition setattr (cls : pyclass) (name : string) (v : value) : pyclass :=
  PyClass (<[name := v]> (cdict cls)) (cmro cls) (cmeta cls).

(** Lookup of [name] through the dictionaries of the bases. *)
Fixpoint lookup_mro (ct : gmap classid pyclass) (mro : list classid)
    (name : string) : option value :=
  match mro with
  | [] => None
  | b :: mro' =>
      match ct !! b with
      | Some k =>
          match cdict k !! name with
          | Some v => Some v
          | None => lookup_mro ct mro' name
          end
      | None => lookup_mro ct mro' name
      end
  end.

(** What [__get__(None, owner)] makes of a class attribute: a
    classmethod (here always a [plumbmethod]) is bound to the class it
    was retrieved from, everything else is handed out as it is. *)
Definition class_bind (owner : classid) (v : value) : value :=
  match v with
  | VPlumbMethod f => VMethod f (VClass owner)
  | _ => v
  end.

(** [getattr(cls, name)] on a class object: the class's own dictionary
    first, then the bases, then what the metaclass provides. The data
    descriptors of [type] ([__dict__], [__name__], [__bases__],
    [__mro__]), which come before the class's own entries, are not
    modelled: these names are taken not to be declared by plugins. *)
Definition getattr_cls (ct : gmap classid pyclass) (c : classid)
    (cls : pyclass) (name : string) : res value :=
  match cdict cls !! name with
  | Some v => Ok (class_bind c v)
  | None =>
      match lookup_mro ct (cmro cls) name with
      | Some v => Ok (class_bind c v)
      | None =>
          match cmeta cls !! name with
          | Some v => Ok v
          | None => Err (AttributeError name)
          end
      end
  end.

(** ** Documentation strings *)

(** [os.linesep] on a POSIX system. *)
Definition linesep : string := String (Ascii.ascii_of_nat 10) EmptyString.

Definition str_doc (v : option value) : option string :=
  match v with
  | Some (VStr s) => Some s
  | _ => None
  end.

(** [cls.__doc__] of a class: the entry of its own dictionary. *)
Definition class_doc (cls : pyclass) : option string :=
  str_doc (cdict cls !! "__doc__").

(** [x.__doc__]: a bound method shows the text of its function. For a
    value of a built-in type Python gives the type's own text, a
    constant of the interpreter that is not modelled here. *)
Fixpoint doc_of (ct : gmap classid pyclass) (v : value) : option string :=
  match v with
  | VFunction _ d => d
  | VObject _ d => d
  | VEntrance _ _ d => d
  | VMethod f _ => doc_of ct f
  | VProperty g _ _ => doc_of ct g
  | VPlumbProperty g _ _ => doc_of ct g
  | VClass c => match ct !! c with Some k => class_doc k | None => None end
  | _ => None
  end.

(** [merge_doc(first, *args)], over any way [doc] of reading [__doc__]. *)
Fixpoint merge_doc {A} (doc : A -> option string) (first : A)
    (args : list A) : option string :=
  match args with
  | [] => doc first
  | a :: rest =>
      match merge_doc doc a rest with
      | None => doc first
      | Some rest_doc =>
          match doc first with
          | None => Some rest_doc
          | Some d => Some (d +:+ linesep +:+ rest_doc)
          end
      end
  end.

(** ** The chain compiler *)

(** [entrance(name, pipe)] *)
Fixpoint entrance (ct : gmap classid pyclass) (name : string)
    (pipe : list value) : res value :=
  match pipe with
  | [] => Err IndexError
  | [last_] => Ok last_
  | plumbattr :: rest =>
      do _next <- entrance ct name rest;
      match plumbattr with
      | VPlumbProperty _ _ _ =>
          Ok (VProperty (VGetEntrance plumbattr _next)
                        (VSetEntrance plumbattr _next)
                        (VDelEntrance plumbattr _next))
      | VMethod _ _ =>
          Ok (VEntrance plumbattr _next (merge_doc (doc_of ct) _next [plumbattr]))
      | _ => Err TypeError
      end
  end.

(** ** Calling the compiled chains *)

Inductive outcome :=
| Ret (v : value)
| Raise (e : exn)
| OutOfFuel.

(** The body of a user function: it receives the interpreter's own
    [call], to invoke the callables among its arguments, and the list
    of positional arguments. *)
Definition body := (value -> list value -> outcome) -> list value -> outcome.

(** [p.fget], [p.fset], [p.fdel] on a value [p]. *)
Definition attr_fget (p : value) : res value :=
  match p with
  | VProperty g _ _ | VPlumbProperty g _ _ => Ok g
  | _ => Err (AttributeError "fget")
  end.

Definition attr_fset (p : value) : res value :=
  match p with
  | VProperty _ s _ | VPlumbProperty _ s _ => Ok s
  | _ => Err (AttributeError "fset")
  end.

Definition attr_fdel (p : value) : res value :=
  match p with
  | VProperty _ _ d | VPlumbProperty _ _ d => Ok d
  | _ => Err (AttributeError "fdel")
  end.

(** A call of [callee] on positional arguments. The cases of the closures are the bodies of
    [_entrance], [get_entrance], [set_entrance] and [del_entrance]. *)
Fixpoint call (E : fid -> body) (fuel : nat) (callee : value)
    (args : list value) : outcome :=
  match fuel with
  | O => OutOfFuel
  | S n =>
      match callee with
      | VFunction f _ => E f (call E n) args
      | VMethod im_func im_self => call E n im_func (im_self :: args)
      | VEntrance plumbattr _next _ =>
          match args with
          | self :: args' => call E n plumbattr (_next :: self :: args')
          | [] => Raise TypeError
          end
      | VGetEntrance plumbattr _next =>
          match args with
          | [self] =>
              match attr_fget plumbattr, attr_fget _next with
              | Ok f, Ok g => call E n f [g; self]
              | Err e, _ | _, Err e => Raise e
              end
          | _ => Raise TypeError
          end
      | VSetEntrance plumbattr _next =>
          match args with
          | [self; val] =>
              match attr_fset plumbattr, attr_fset _next with
              | Ok f, Ok g => call E n f [g; self; val]
              | Err e, _ | _, Err e => Raise e
              end
          | _ => Raise TypeError
          end
      | VDelEntrance plumbattr _next =>
          match args with
          | [self] =>
              match attr_fdel plumbattr, attr_fdel _next with
              | Ok f, Ok g => call E n f [g; self]
              | Err e, _ | _, Err e => Raise e
              end
          | _ => Raise TypeError
          end
      | _ => Raise TypeError
      end
  end.

(** ** The pipeline collector *)

(** The three dictionaries the first loop of [Plumber.__init__] works
    on: the class under construction, [pipelines] and [defaulted]. *)
Record cstate := CState {
  st_cls : pyclass;
  st_pipelines : gmap string (list value);
  st_defaulted : gset string
}.

Fixpoint for_each {A S} (f : A -> S -> res S) (l : list A) (s : S) : res S :=
  match l with
  | [] => Ok s
  | x :: l' => do s' <- f x s; for_each f l' s'
  end.

Definition is_closed_marker (v : value) : bool :=
  match v with
  | VClosed => true
  | _ => false
  end.

Definition is_plumbproperty (v : value) : bool :=
  match v with
  | VPlumbProperty _ _ _ => true
  | _ => false
  end.

Definition is_method (v : value) : bool :=
  match v with
  | VMethod _ _ => true
  | _ => false
  end.

(** [pipe[-1] is CLOSED] for a pipe that may be empty. *)
Definition last_is_closed (pipe : list value) : bool :=
  match last pipe with
  | Some v => is_closed_marker v
  | None => false
  end.

(** [name in pipelines and pipelines[name][-1] is CLOSED]; indexing an
    empty list raises [IndexError]. *)
Definition pipeline_closed (pipelines : gmap string (list value))
    (name : string) : res bool :=
  match pipelines !! name with
  | None => Ok false
  | Some pipe =>
      match last pipe with
      | Some v => Ok (is_closed_marker v)
      | None => Err IndexError
      end
  end.

(** The body of the inner loop, for one item [(name, decor)] of
    [plugin.__dict__]. *)
Definition collect_attr (ct : gmap classid pyclass) (plugin : classid)
    (pk : pyclass) (name : string) (decor : value) (st : cstate) : res cstate :=
  let cls := st_cls st in
  let pipelines := st_pipelines st in
  let defaulted := st_defaulted st in
  match decor with
  | VMarker m attr =>
      let pipe := default [] (pipelines !! name) in
      let pipe := if last_is_closed pipe then pipe else pipe ++ [VClosed] in
      let pipelines := <[name := pipe]> pipelines in
      match m with
      | Extend =>
          if decide (is_Some (cdict cls !! name) ∧ name ∉ defaulted)
          then Err (PlumbingCollision name)
          else Ok (CState (setattr cls name attr) pipelines (defaulted ∖ {[name]}))
      | Default =>
          if decide (is_Some (cdict cls !! name))
          then Ok (CState cls pipelines defaulted)
          else Ok (CState (setattr cls name attr) pipelines ({[name]} ∪ defaulted))
      | Base => Ok (CState cls pipelines defaulted)
      end
  | _ =>
      do closed <- pipeline_closed pipelines name;
      if closed : bool then Err (PlumbingCollision name)
      else
        match decor with
        | VPlumbMethod _ =>
            let pipe := default [] (pipelines !! name) in
            if match last pipe with
               | Some v => is_plumbproperty v
               | None => false
               end
            then Err (PlumbingCollision name)
            else
              do m <- getattr_cls ct plugin pk name;
              Ok (CState cls (<[name := pipe ++ [m]]> pipelines) defaulted)
        | VPlumbProperty _ _ _ =>
            let pipe := default [] (pipelines !! name) in
            if match last pipe with
               | Some v => negb (is_plumbproperty v)
               | None => false
               end
            then Err (PlumbingCollision name)
            else Ok (CState cls (<[name := pipe ++ [decor]]> pipelines) defaulted)
        | _ => Ok st
        end
  end.

(** One round of the outer loop. The interface propagation through
    [zope.interface] is an optional collaborator and is taken as not
    installed ([ZOPE_INTERFACE_AVAILABLE = False]). The items of the
    plugin's dictionary come in the order of the map, one fixed order
    as that of a Python dictionary is. Only classes are modelled as
    entries of [__pipeline__]; any other entry is treated as an object
    without a [__dict__]. *)
Definition collect_plugin (ct : gmap classid pyclass) (plugin : value)
    (st : cstate) : res cstate :=
  match plugin with
  | VClass p =>
      match ct !! p with
      | Some pk =>
          for_each (fun nd => collect_attr ct p pk nd.1 nd.2)
                   (map_to_list (cdict pk)) st
      | None => Err (AttributeError "__dict__")
      end
  | _ => Err (AttributeError "__dict__")
  end.

Definition collect (ct : gmap classid pyclass) (plugins : list value)
    (cls : pyclass) : res cstate :=
  for_each (collect_plugin ct) plugins (CState cls ∅ ∅).

(** ** Endpoint resolution and installation *)

(** The body of the second loop, for one item [(name, pipe)] of
    [pipelines]. *)
Definition install (ct : gmap classid pyclass) (c : classid)
    (name : string) (pipe : list value) (cls : pyclass) : res pyclass :=
  match last pipe with
  | None => Err IndexError
  | Some l =>
      let pipe := if is_closed_marker l then removelast pipe else pipe in
      do end_point <- getattr_cls ct c cls name;
      do e <- entrance ct name (pipe ++ [end_point]);
      Ok (setattr cls name e)
  end.

Definition install_all (ct : gmap classid pyclass) (c : classid)
    (pipelines : gmap string (list value)) (cls : pyclass) : res pyclass :=
  for_each (fun np => install ct c np.1 np.2) (map_to_list pipelines) cls.

(** ** The metaclass initialiser *)

Definition doc_value (d : option string) : value :=
  match d with
  | Some s => VStr s
  | None => VNone
  end.

(** [__doc__] of the class under construction or of a pipeline entry. *)
Definition doc_of_arg (ct : gmap classid pyclass) (x : pyclass + value)
    : option string :=
  match x with
  | inl k => class_doc k
  | inr v => doc_of ct v
  end.

(** Lines 170 to 174: [__pipeline__] is made a tuple and the merged
    documentation is stored; the result is the tuple's entries and the
    class as it then stands. *)
Definition declare_pipeline (ct : gmap classid pyclass) (c : classid)
    (cls : pyclass) : res (list value * pyclass) :=
  do p <- getattr_cls ct c cls "__pipeline__";
  let plugins := match p with
                 | VTuple vs => vs
                 | _ => [p]
                 end in
  let cls := match p with
             | VTuple _ => cls
             | _ => setattr cls "__pipeline__" (VTuple plugins)
             end in
  Ok (plugins,
      setattr cls "__doc__"
        (doc_value (merge_doc (doc_of_arg ct) (inl cls)
                              (inr <$> reverse plugins)))).

(** The two loops. *)
Definition compose (ct : gmap classid pyclass) (c : classid)
    (plugins : list value) (cls : pyclass) : res pyclass :=
  do st <- collect ct plugins cls;
  install_all ct c (st_pipelines st) (st_cls st).

(** [Plumber.__init__(cls, name, bases, dct)], after [type.__init__],
    for the class [cls] known under the name [c]. *)
Definition Plumber_init (ct : gmap classid pyclass) (c : classid)
    (cls : pyclass) : res pyclass :=
  match cdict cls !! "__pipeline__" with
  | None | Some VNone => Ok cls
  | Some _ =>
      do pc <- declare_pipeline ct c cls;
      compose ct c pc.1 pc.2
  end.

(** ** Reference descriptions of the merged documentation *)

(** [os.linesep.join(ds)] for a non-empty [ds]; nothing for an empty one. *)
Fixpoint join_docs (ds : list string) : option string :=
  match ds with
  | [] => None
  | d :: ds' =>
      match join_docs ds' with
      | None => Some d
      | Some r => Some (d +:+ linesep +:+ r)
      end
  end.

(** The text of a chain as the specification words it: the layers'
    descriptions from the outermost layer to the innermost one. *)
Definition spec_chain_doc (ct : gmap classid pyclass) (pipe : list value)
    : option string :=
  join_docs (omap (doc_of ct) pipe).

(** The same texts from the innermost layer to the outermost one. *)
Definition chain_doc (ct : gmap classid pyclass) (pipe : list value)
    : option string :=
  join_docs (omap (doc_of ct) (reverse pipe)).

(** A plugin attribute that carries none of the declarations. *)
Definition is_plain (v : value) : bool :=
  match v with
  | VMarker _ _ | VPlumbMethod _ | VPlumbProperty _ _ _ => false
  | _ => true
  end.

(** ** Shape of the collected pipelines *)

(** Entries of one kind only: bound plumbing methods, or plumbing
    properties. *)
Definition homogeneous (entries : list value) : Prop :=
  Forall (λ v, is_method v = true) entries
  ∨ Forall (λ v, is_plumbproperty v = true) entries.

(** A pipeline during collection: entries of one kind, at least one of
    them unless the [CLOSED] marker ends the list. *)
Definition pipe_ok (pipe : list value) : Prop :=
  ∃ entries, homogeneous entries
    ∧ ((pipe = entries ∧ entries ≠ []) ∨ pipe = entries ++ [VClosed]).

Definition pipelines_ok (ps : gmap string (list value)) : Prop :=
  map_Forall (λ _ pipe, pipe_ok pipe) ps.

(** What the collector's state holds about one name. *)
Definition view (n : string) (st : cstate)
    : option (list value) * option value * bool :=
  (st_pipelines st !! n, cdict (st_cls st) !! n,
   bool_decide (n ∈ st_defaulted st)).

(** The state a run of the collector has reached: well-formed
    pipelines, the bases of the class untouched, and what is held
    about the name [n] as in [st0]. *)
Definition same_about (n : string) (st0 st : cstate) : Prop :=
  pipelines_ok (st_pipelines st)
  ∧ cenv (st_cls st) = cenv (st_cls st0)
  ∧ view n st = view n st0.

(** A failure that is a collision on another name than [n]. *)
Definition collides_elsewhere (n : string) (e : exn) : Prop :=
  ∃ m, m ≠ n ∧ e = PlumbingCollision m.

(** ** The plumbing methods of a name, in pipeline order *)

(** The entry a plugin contributes to the pipeline of [n] when it
    declares a [plumbmethod] there: the method bound to the plugin. *)
Definition plumbed_method (ct : gmap classid pyclass) (n : string)
    (plugin : value) : option value :=
  match plugin with
  | VClass p =>
      match ct !! p with
      | Some pk =>
          match cdict pk !! n with
          | Some (VPlumbMethod f) => Some (VMethod f (VClass p))
          | _ => None
          end
      | None => None
      end
  | _ => None
  end.

Definition plumbed_methods (ct : gmap classid pyclass) (n : string)
    (plugins : list value) : list value :=
  omap (plumbed_method ct n) plugins.

(** Under [n] the plugin declares a [plumbmethod], a plain attribute,
    or nothing. *)
Definition plumbs_or_undeclared (pk : pyclass) (n : string) : Prop :=
  ∀ d, cdict pk !! n = Some d → is_plain d = true ∨ ∃ f, d = VPlumbMethod f.

(** The entry of [pipelines] that holds the list [l]: there is none
    for an empty list. *)
Definition pipe_of (l : list value) : option (list value) :=
  match l with
  | [] => None
  | _ => Some l
  end.

(** ** What the collector holds of one name's pipeline *)

(** The pipeline of a name for which the bound methods [l] have been
    collected: the list itself, open or closed by the [CLOSED] marker;
    there is no entry as long as nothing was declared. *)
Definition holds_methods (o : option (list value)) (l : list value) : Prop :=
  o = pipe_of l ∨ o = Some (l ++ [VClosed]).

(** A pipeline of plumbing properties, open or closed. *)
Definition holds_properties (o : option (list value)) : Prop :=
  ∃ entries, entries ≠ []
    ∧ Forall (λ v, is_plumbproperty v = true) entries
    ∧ (o = Some entries ∨ o = Some (entries ++ [VClosed])).

(** The pipeline of a name after some rounds of the first loop, [l]
    being the bound methods those rounds met under the name: it holds
    [l], or it holds properties and no method was met. *)
Definition pipeline_state (o : option (list value)) (l : list value) : Prop :=
  holds_methods o l ∨ (l = [] ∧ holds_properties o).

(** What a declaration [d] of the plugin [p] adds to the methods of a
    pipeline. *)
Definition method_of (p : classid) (d : value) : list value :=
  match d with
  | VPlumbMethod f => [VMethod f (VClass p)]
  | _ => []
  end.

(** ** Example classes *)

(** Some of what [type] provides to the classes it makes. *)
Definition type_attrs : gmap string value :=
  {[ "__call__" := VObject "type.__call__" None;
     "mro" := VObject "type.mro" None;
     "__subclasses__" := VObject "type.__subclasses__" None ]}.

Definition doc_layers : list value :=
  [VMethod (VFunction "a_foo" (Some "A")) (VClass "A");
   VMethod (VFunction "b_foo" (Some "B")) (VClass "B")].

Definition doc_end_point : value := VFunction "foo" (Some "E").

(** A plugin with a plumbed property [x] and a class that supplies the
    end point. *)
Definition prop_plugin : pyclass :=
  PyClass {[ "x" := VPlumbProperty (VFunction "plugin_get" None)
                                   (VFunction "plugin_set" None)
                                   (VFunction "plugin_del" None) ]} [] type_attrs.

Definition prop_table : gmap classid pyclass := {[ "Plugin" := prop_plugin ]}.

Definition prop_cls : pyclass :=
  PyClass {[ "__pipeline__" := VTuple [VClass "Plugin"];
             "x" := VProperty (VFunction "get" None) (VFunction "set" None)
                              (VFunction "del" None) ]} [] type_attrs.

(** Accessors that hand back the arguments they were called with. *)
Definition echo_env : fid → body := λ _ _ args, Ret (VTuple args).

(** Accessors written to the documented signatures
    [getter(plb, _next, self)], [setter(plb, _next, self, val)] and
    [deleter(plb, _next, self)]; a call with another number of
    arguments is a [TypeError]. *)
Definition documented_env : fid → body := λ f k args,
  if decide (f = "plugin_get" ∨ f = "plugin_del") then
    match args with
    | [plb; _next; self] => k _next [self]
    | _ => Raise TypeError
    end
  else if decide (f = "plugin_set") then
    match args with
    | [plb; _next; self; val] => k _next [self; val]
    | _ => Raise TypeError
    end
  else Ret VNone.

(** Two plugins that plumb the method [m] and a class that defines the
    end point. *)
Definition a_m : value := VFunction "a_m" (Some "A").
Definition b_m : value := VFunction "b_m" (Some "B").

Definition chainA : pyclass := PyClass {[ "m" := VPlumbMethod a_m ]} [] type_attrs.
Definition chainB : pyclass := PyClass {[ "m" := VPlumbMethod b_m ]} [] type_attrs.

Definition chain_table : gmap classid pyclass :=
  {[ "A" := chainA; "B" := chainB ]}.

Definition chain_cls : pyclass :=
  PyClass {[ "__pipeline__" := VTuple [VClass "A"; VClass "B"];
             "m" := VFunction "m" (Some "E") ]} [] type_attrs.

(** The same pipeline on a class that has no [m] and no bases. *)
Definition endless_cls : pyclass :=
  PyClass {[ "__pipeline__" := VTuple [VClass "A"; VClass "B"] ]} [] type_attrs.

(** Plugins that declare [foo] with [default], with [extend], and as a
    plain attribute. *)
Definition default_plugin : pyclass :=
  PyClass {[ "foo" := default_ (VInt 1) ]} [] type_attrs.
Definition extend_plugin : pyclass :=
  PyClass {[ "foo" := extend (default_ (VInt 2)) ]} [] type_attrs.
Definition plain_plugin : pyclass :=
  PyClass {[ "foo" := VInt 3 ]} [] type_attrs.
Definition empty_plugin : pyclass := PyClass ∅ [] type_attrs.

Definition default_plain_table : gmap classid pyclass :=
  {[ "A" := default_plugin; "B" := plain_plugin ]}.
Definition default_empty_table : gmap classid pyclass :=
  {[ "A" := default_plugin; "B" := empty_plugin ]}.

Definition two_plugin_cls : pyclass :=
  PyClass {[ "__pipeline__" := VTuple [VClass "A"; VClass "B"] ]} [] type_attrs.

(** A plugin that plumbs the property [x] and one that plumbs a method
    of the same name. *)
Definition x_property_plugin : pyclass :=
  PyClass {[ "x" := VPlumbProperty (VFunction "get" None) VNone VNone ]} [] type_attrs.
Definition x_method_plugin : pyclass :=
  PyClass {[ "x" := VPlumbMethod (VFunction "x" None) ]} [] type_attrs.

Definition property_table : gmap classid pyclass :=
  {[ "A" := x_property_plugin; "B" := x_method_plugin ]}.

(** ** Further notions used by the properties *)

(** An entry the chain compiler accepts in front of the end point. *)
Definition is_plumbing (v : value) : bool :=
  is_method v || is_plumbproperty v.

(** A plumbing method, bound to its plugin, whose function does nothing
    but call [_next] on the instance and the arguments it was given:
    [def m(plb, _next, self, *args): return _next(self, *args)]. *)
Definition passes_through (E : fid → body) (v : value) : Prop :=
  ∃ f d plb, v = VMethod (VFunction f d) plb
    ∧ ∀ k _next rest, E f k (plb :: _next :: rest) = k _next rest.

(** The values that have no [fget], [fset] or [fdel]: functions, bound
    methods and plain data. *)
Definition lacks_accessors (v : value) : bool :=
  match v with
  | VNone | VInt _ | VStr _ | VTuple _ | VFunction _ _ | VMethod _ _
  | VEntrance _ _ _ | VGetEntrance _ _ | VSetEntrance _ _
  | VDelEntrance _ _ => true
  | _ => false
  end.

(** A plugin declares nothing that the collector acts on under [n]. *)
Definition undeclared (pk : pyclass) (n : string) : Prop :=
  ∀ d, cdict pk !! n = Some d → is_plain d = true.

(** An environment in which every function passes its arguments on to
    the callable it received second, and [m] returns its arguments. *)
Definition relay_env : fid → body := λ f k args,
  if decide (f = "m") then Ret (VTuple args)
  else match args with
       | plb :: _next :: rest => k _next rest
       | _ => Raise TypeError
       end.

(** A class that defines [foo] itself. *)
Definition foo_cls : pyclass :=
  PyClass {[ "__pipeline__" := VTuple [VClass "A"; VClass "B"];
             "foo" := VInt 0 ]} [] type_attrs.

Definition extend_only_table : gmap classid pyclass :=
  {[ "A" := extend_plugin ]}.
Definition default_only_table : gmap classid pyclass :=
  {[ "A" := default_plugin ]}.
Definition default_default_table : gmap classid pyclass :=
  {[ "A" := default_plugin;
     "B" := PyClass {[ "foo" := default_ (VInt 5) ]} [] type_attrs ]}.

(** A plugin that plumbs the method [foo], in front of one that
    supplies the default. *)
Definition foo_method : value := VFunction "a_foo" (Some "A").
Definition foo_method_plugin : pyclass :=
  PyClass {[ "foo" := VPlumbMethod foo_method ]} [] type_attrs.
Definition method_default_table : gmap classid pyclass :=
  {[ "A" := foo_method_plugin; "B" := default_plugin ]}.
Definition default_method_table : gmap classid pyclass :=
  {[ "A" := default_plugin; "B" := foo_method_plugin ]}.

(** A class whose own [x] is no property, below a plumbed property. *)
Definition x_cls : pyclass :=
  PyClass {[ "__pipeline__" := VTuple [VClass "A"];
             "x" := VInt 5 ]} [] type_attrs.

(** Two plugins and a class with a text each. *)
Definition doc_table : gmap classid pyclass :=
  {[ "A" := PyClass {[ "__doc__" := VStr "A" ]} [] type_attrs;
     "B" := PyClass {[ "__doc__" := VStr "B" ]} [] type_attrs ]}.

Definition doc_cls : pyclass :=
  PyClass {[ "__pipeline__" := VTuple [VClass "A"; VClass "B"];
             "__doc__" := VStr "C" ]} [] type_attrs.

(** A third plugin that plumbs [m], and the class over the three. *)
Definition d_m : value := VFunction "d_m" (Some "D").
Definition chainD : pyclass := PyClass {[ "m" := VPlumbMethod d_m ]} [] type_attrs.

Definition chain3_table : gmap classid pyclass :=
  {[ "A" := chainA; "B" := chainB; "D" := chainD ]}.

Definition chain3_cls : pyclass :=
  PyClass {[ "__pipeline__" := VTuple [VClass "A"; VClass "B"; VClass "D"];
             "m" := VFunction "m" (Some "E") ]} [] type_attrs.

(** The functions of the chain: each layer tags what [_next] returns
    with its own name and the plugin it was handed; the end point
    returns its arguments. *)
Definition chain_env : fid → body := λ f k args,
  if decide (f = "m") then Ret (VTuple args)
  else match args with
       | plb :: _next :: rest =>
           match k _next rest with
           | Ret v => Ret (VTuple [VStr f; plb; v])
           | o => o
           end
       | _ => Raise TypeError
       end.

(** A plugin that plumbs [__call__], which only the metaclass
    provides. *)
Definition call_plugin : pyclass :=
  PyClass {[ "__call__" := VPlumbMethod (VFunction "p_call" None) ]} []
    type_attrs.
Definition call_table : gmap classid pyclass := {[ "A" := call_plugin ]}.
Definition call_cls : pyclass :=
  PyClass {[ "__pipeline__" := VTuple [VClass "A"] ]} [] type_attrs.

(** * Properties *)

(** ** Markers *)

Lemma unwrap_not_marker (x : value) : is_marker (unwrap x) = false.
Proof. induction x; simpl; auto. Qed.

Lemma unwrap_idem (x : value) : unwrap (unwrap x) = unwrap x.
Proof. induction x; simpl; auto. Qed.

Lemma extensiondecor_nested (m1 m2 : marker) (x : value) :
  extensiondecor m1 (extensiondecor m2 x) = extensiondecor m1 x.
Proof. unfold extensiondecor. simpl. by rewrite unwrap_idem. Qed.

Lemma unwrap_raw (x : value) : is_marker x = false → unwrap x = x.
Proof. by destruct x. Qed.

Lemma unwrap_nest (x : value) (ms : list marker) :
  unwrap (foldr VMarker x ms) = unwrap x.
Proof. induction ms as [|m ms IH]; [reflexivity|exact IH]. Qed.

(** C9. Unwrapping goes down to the innermost raw value: a value that
    is no marker is left as it is, and markers nested to any depth
    around it are all stripped; so the value stored by
    [default(default(x))] is the value stored by [default(x)], it is
    [x] stripped of all its markers and is itself no marker, and
    wrapping any number of times more, with either marker class, builds
    the very same marker as wrapping once. *)
Theorem nested_markers_unwrap (x : value) (n : nat) (m : marker) :
  marker_attr (default_ (default_ x)) = marker_attr (default_ x)
  ∧ marker_attr (default_ x) = Some (unwrap x)
  ∧ is_marker (unwrap x) = false
  ∧ Nat.iter (S n) default_ x = default_ x
  ∧ default_ (extensiondecor m x) = default_ x
  ∧ extend (extensiondecor m x) = extend x
  ∧ (is_marker x = false →
       unwrap x = x
       ∧ (∀ ms, unwrap (foldr VMarker x ms) = x)
       ∧ marker_attr (default_ (default_ x)) = Some x
       ∧ (∀ ms, marker_attr (default_ (foldr VMarker x ms)) = Some x)).
Proof.
  split_and!; try apply extensiondecor_nested; try reflexivity.
  - unfold default_. by rewrite extensiondecor_nested.
  - apply unwrap_not_marker.
  - induction n as [|n IH]; [reflexivity|].
    change (default_ (Nat.iter (S n) default_ x) = default_ x).
    rewrite IH. apply extensiondecor_nested.
  - intros Hx. split_and!.
    + by apply unwrap_raw.
    + intros ms. by rewrite unwrap_nest, unwrap_raw.
    + unfold default_. rewrite extensiondecor_nested. simpl.
      by rewrite unwrap_raw.
    + intros ms. simpl. by rewrite unwrap_nest, unwrap_raw.
Qed.

Lemma nested_markers_unwrap_witness :
  unwrap (VInt 1) = VInt 1
  ∧ unwrap (VMarker Default (VMarker Extend (VMarker Default (VInt 1))))
    = VInt 1
  ∧ marker_attr (default_ (default_ (VInt 1))) = Some (VInt 1).
Proof.
  destruct (nested_markers_unwrap (VInt 1) 0 Default)
    as (_ & _ & _ & _ & _ & _ & H).
  destruct (H eq_refl) as (H1 & H2 & H3 & _).
  split_and!; [exact H1|exact (H2 [Default; Extend; Default])|exact H3].
Defined.

(** ** Marking for plumbing *)

(** C8. [plumb] turns a function into a [plumbmethod] marker and a
    property into a [plumbproperty] marker of the same three accessors;
    for an argument that is neither it raises [TypeError]. *)
Theorem plumb_type_constraint (attr : value) :
  (is_function attr = true → plumb attr = Ok (VPlumbMethod attr))
  ∧ (∀ fget fset fdel, attr = VProperty fget fset fdel →
       plumb attr = Ok (VPlumbProperty fget fset fdel))
  ∧ (is_function attr = false → is_exact_property attr = false →
       plumb attr = Err TypeError).
Proof.
  repeat split.
  - destruct attr; simpl; intros H; try discriminate; reflexivity.
  - intros g s d ->. reflexivity.
  - destruct attr; simpl; intros H1 H2; try discriminate; reflexivity.
Qed.

Lemma plumb_type_constraint_witness :
  plumb (VFunction "foo" None) = Ok (VPlumbMethod (VFunction "foo" None))
  ∧ plumb (VProperty (VFunction "get" None) VNone VNone)
    = Ok (VPlumbProperty (VFunction "get" None) VNone VNone)
  ∧ plumb (VInt 1) = Err TypeError
  ∧ plumb (VPlumbProperty (VFunction "get" None) VNone VNone) = Err TypeError.
Proof.
  split; [|split; [|split]].
  - apply (plumb_type_constraint (VFunction "foo" None)). reflexivity.
  - apply (plumb_type_constraint (VProperty (VFunction "get" None) VNone VNone)
             ) with (fget := VFunction "get" None) (fset := VNone) (fdel := VNone).
    reflexivity.
  - apply (plumb_type_constraint (VInt 1)); reflexivity.
  - apply (plumb_type_constraint
             (VPlumbProperty (VFunction "get" None) VNone VNone)); reflexivity.
Defined.

(** ** Classes without a pipeline *)

(** C10. A class whose own dictionary has no [__pipeline__] entry is
    left exactly as [type] built it, whatever its bases declare. *)
Theorem Plumber_init_without_pipeline (ct : gmap classid pyclass)
    (c : classid) (cls : pyclass) :
  cdict cls !! "__pipeline__" = None →
  Plumber_init ct c cls = Ok cls.
Proof. intros H. unfold Plumber_init. rewrite H. reflexivity. Qed.

(** A subclass of a composed class: the pipeline is declared by the
    base only. *)
Lemma Plumber_init_without_pipeline_witness :
  let base := PyClass {[ "__pipeline__" := VTuple [VClass "Plugin"];
                         "foo" := VInt 1 ]} [] type_attrs in
  let ct : gmap classid pyclass :=
    {[ "Plumbing" := base; "Plugin" := PyClass {[ "foo" := VInt 2 ]} [] type_attrs ]} in
  let sub := PyClass {[ "bar" := VInt 3 ]} ["Plumbing"] type_attrs in
  lookup_mro ct (cmro sub) "__pipeline__" = Some (VTuple [VClass "Plugin"])
  ∧ Plumber_init ct "Sub" sub = Ok sub.
Proof.
  split; [vm_compute; reflexivity|].
  apply Plumber_init_without_pipeline. vm_compute. reflexivity.
Defined.

(** ** Documentation of a method chain *)

Lemma string_app_assoc (a b c : string) : (a +:+ b) +:+ c = a +:+ b +:+ c.
Proof.
  induction a as [|x a IH]; [reflexivity|].
  change (String x ((a +:+ b) +:+ c) = String x (a +:+ b +:+ c)).
  by rewrite IH.
Qed.

Lemma join_docs_snoc (ds : list string) (d : string) :
  join_docs (ds ++ [d]) =
    match join_docs ds with
    | None => Some d
    | Some r => Some (r +:+ linesep +:+ d)
    end.
Proof.
  induction ds as [|x ds IH]; cbn [join_docs app]; [reflexivity|].
  rewrite IH. destruct (join_docs ds) as [r|]; [|reflexivity].
  by rewrite !string_app_assoc.
Qed.

Lemma entrance_cons (ct : gmap classid pyclass) (name : string)
    (plumbattr : value) (rest : list value) :
  rest ≠ [] →
  entrance ct name (plumbattr :: rest) =
    do _next <- entrance ct name rest;
    match plumbattr with
    | VPlumbProperty _ _ _ =>
        Ok (VProperty (VGetEntrance plumbattr _next)
                      (VSetEntrance plumbattr _next)
                      (VDelEntrance plumbattr _next))
    | VMethod _ _ =>
        Ok (VEntrance plumbattr _next (merge_doc (doc_of ct) _next [plumbattr]))
    | _ => Err TypeError
    end.
Proof. destruct rest; [done|reflexivity]. Qed.

Lemma call_ignores_doc (E : fid → body) (fuel : nat) (plumbattr _next : value)
    (d d' : option string) (args : list value) :
  call E fuel (VEntrance plumbattr _next d) args
  = call E fuel (VEntrance plumbattr _next d') args.
Proof. destruct fuel; reflexivity. Qed.

(** The text of a compiled method chain, innermost layer first. *)
Lemma entrance_method_chain (ct : gmap classid pyclass) (name : string)
    (layers : list value) (end_point : value) :
  Forall (λ v, is_method v = true) layers →
  ∃ e, entrance ct name (layers ++ [end_point]) = Ok e
       ∧ doc_of ct e = chain_doc ct (layers ++ [end_point]).
Proof.
  unfold chain_doc. induction 1 as [|p layers Hp _ IH].
  - exists end_point. split; [reflexivity|]. simpl.
    destruct (doc_of ct end_point); reflexivity.
  - destruct IH as (nxt & Hnxt & Hdoc).
    destruct p; try discriminate Hp.
    eexists. split.
    + change ((VMethod p1 p2 :: layers) ++ [end_point])
        with (VMethod p1 p2 :: (layers ++ [end_point])).
      rewrite entrance_cons by (by destruct layers).
      rewrite Hnxt. reflexivity.
    + change ((VMethod p1 p2 :: layers) ++ [end_point])
        with (VMethod p1 p2 :: (layers ++ [end_point])).
      rewrite reverse_cons, omap_app. cbn [doc_of merge_doc].
      rewrite Hdoc. cbn [omap list_omap doc_of].
      destruct (doc_of ct p1) as [dp|].
      * rewrite join_docs_snoc.
        destruct (join_docs _); reflexivity.
      * rewrite app_nil_r. destruct (join_docs _); reflexivity.
Qed.

(** C6, as the code has it. The text attached to a compiled method
    chain joins the descriptions of the layers that have one with the
    line separator, from the innermost layer to the outermost: the
    end point's text comes first and the first plugin's text last. The
    text plays no part in a call of the chain. *)
Theorem entrance_doc_inner_to_outer (ct : gmap classid pyclass)
    (name : string) (layers : list value) (end_point : value) :
  Forall (λ v, is_method v = true) layers →
  ∃ e, entrance ct name (layers ++ [end_point]) = Ok e
       ∧ doc_of ct e
         = join_docs (omap (doc_of ct) (end_point :: reverse layers))
       ∧ ∀ E fuel plumbattr _next d d' args,
           call E fuel (VEntrance plumbattr _next d) args
           = call E fuel (VEntrance plumbattr _next d') args.
Proof.
  intros H. destruct (entrance_method_chain ct name layers end_point H)
    as (e & He & Hd).
  exists e. split_and!; [done| |].
  - rewrite Hd. unfold chain_doc. by rewrite reverse_snoc.
  - intros. apply call_ignores_doc.
Qed.

Lemma entrance_doc_inner_to_outer_witness :
  ∃ e, entrance ∅ "foo" (doc_layers ++ [doc_end_point]) = Ok e
       ∧ doc_of ∅ e = Some ("E" +:+ linesep +:+ "B" +:+ linesep +:+ "A").
Proof.
  destruct (entrance_doc_inner_to_outer ∅ "foo" doc_layers doc_end_point)
    as (e & He & Hd & _).
  - repeat constructor.
  - exists e. split; [exact He|]. rewrite Hd. reflexivity.
Defined.

(** The chain [A.foo; B.foo; foo] does not carry the text in the order
    of the layers: the first plugin's text is last. *)
Lemma chain_doc_is_not_outer_to_inner :
  ∃ e, entrance ∅ "foo" (doc_layers ++ [doc_end_point]) = Ok e
       ∧ spec_chain_doc ∅ (doc_layers ++ [doc_end_point])
         = Some ("A" +:+ linesep +:+ "B" +:+ linesep +:+ "E")
       ∧ doc_of ∅ e = Some ("E" +:+ linesep +:+ "B" +:+ linesep +:+ "A")
       ∧ doc_of ∅ e ≠ spec_chain_doc ∅ (doc_layers ++ [doc_end_point]).
Proof.
  eexists. split; [reflexivity|]. split; [reflexivity|].
  split; [reflexivity|]. discriminate.
Qed.

(** ** Accessors of a plumbed property *)

Lemma get_entrance_call (E : fid → body) (fuel : nat)
    (fget fset fdel _next self : value) :
  call E (S fuel) (VGetEntrance (VPlumbProperty fget fset fdel) _next) [self]
  = match attr_fget _next with
    | Ok g => call E fuel fget [g; self]
    | Err e => Raise e
    end.
Proof. simpl. destruct (attr_fget _next); reflexivity. Qed.

Lemma set_entrance_call (E : fid → body) (fuel : nat)
    (fget fset fdel _next self val : value) :
  call E (S fuel) (VSetEntrance (VPlumbProperty fget fset fdel) _next)
       [self; val]
  = match attr_fset _next with
    | Ok g => call E fuel fset [g; self; val]
    | Err e => Raise e
    end.
Proof. simpl. destruct (attr_fset _next); reflexivity. Qed.

Lemma del_entrance_call (E : fid → body) (fuel : nat)
    (fget fset fdel _next self : value) :
  call E (S fuel) (VDelEntrance (VPlumbProperty fget fset fdel) _next) [self]
  = match attr_fdel _next with
    | Ok g => call E fuel fdel [g; self]
    | Err e => Raise e
    end.
Proof. simpl. destruct (attr_fdel _next); reflexivity. Qed.

(** C5. On the composed class the three accessors of the plumbed
    property [x] call the plugin's accessor with the next accessor and
    the instance (and the value) only: the declaring plugin is not
    among the arguments, and accessors written to the documented
    signatures fail with [TypeError]. *)
Theorem plumbproperty_accessors_get_no_plugin :
  ∃ cls' g s d,
    Plumber_init prop_table "C" prop_cls = Ok cls'
    ∧ cdict cls' !! "x" = Some (VProperty g s d)
    ∧ call echo_env 2 g [VObject "self" None]
      = Ret (VTuple [VFunction "get" None; VObject "self" None])
    ∧ call echo_env 2 s [VObject "self" None; VInt 1]
      = Ret (VTuple [VFunction "set" None; VObject "self" None; VInt 1])
    ∧ call echo_env 2 d [VObject "self" None]
      = Ret (VTuple [VFunction "del" None; VObject "self" None])
    ∧ call documented_env 5 g [VObject "self" None] = Raise TypeError
    ∧ call documented_env 5 s [VObject "self" None; VInt 1] = Raise TypeError
    ∧ call documented_env 5 d [VObject "self" None] = Raise TypeError.
Proof.
  eexists _, _, _, _. split; [vm_compute; reflexivity|].
  split; [vm_compute; reflexivity|].
  split_and!; vm_compute; reflexivity.
Qed.

(** ** Loops over a dictionary's items *)

Lemma for_each_app {A S} (f : A → S → res S) (l1 l2 : list A) (s : S) :
  for_each f (l1 ++ l2) s = do s' <- for_each f l1 s; for_each f l2 s'.
Proof.
  revert s. induction l1 as [|x l1 IH]; intros s; simpl; [reflexivity|].
  destruct (f x s); simpl; [apply IH|reflexivity].
Qed.

(** A loop keeps an invariant of its body; a failure of the loop is a
    failure of one round. *)
Lemma for_each_hoare {A S} (f : A → S → res S) (I : S → Prop)
    (Qe : exn → Prop) (l : list A) (s : S) :
  I s →
  (∀ x s, x ∈ l → I s →
     match f x s with Ok s' => I s' | Err e => Qe e end) →
  match for_each f l s with Ok s' => I s' | Err e => Qe e end.
Proof.
  revert s. induction l as [|x l IH]; intros s Hs Hf; simpl; [done|].
  pose proof (Hf x s ltac:(left) Hs) as Hx.
  destruct (f x s) as [s1|e]; simpl; [|done].
  apply IH; [done|]. intros y s2 Hy. apply Hf. by right.
Qed.

(** The items of a dictionary around the one with key [n]. *)
Lemma map_to_list_split {V} (m : gmap string V) (n : string) (v : V) :
  m !! n = Some v →
  ∃ l1 l2, map_to_list m = l1 ++ (n, v) :: l2
    ∧ (∀ x, x ∈ l1 ++ l2 → x.1 ≠ n ∧ m !! x.1 = Some x.2).
Proof.
  intros Hm. apply elem_of_map_to_list in Hm.
  destruct (list_elem_of_split _ _ Hm) as (l1 & l2 & Hl).
  exists l1, l2. split; [done|].
  pose proof (NoDup_fst_map_to_list m) as Hnd.
  rewrite Hl, fmap_app, fmap_cons in Hnd. simpl in Hnd.
  apply NoDup_app in Hnd as (_ & H1 & Hnd).
  apply NoDup_cons in Hnd as (H2 & _).
  intros [k w] Hx. simpl. split.
  - intros ->. apply elem_of_app in Hx as [Hx|Hx].
    + apply (H1 n); [|left]. apply list_elem_of_fmap. by exists (n, w).
    + apply H2. apply list_elem_of_fmap. by exists (n, w).
  - apply elem_of_map_to_list. rewrite Hl.
    apply elem_of_app in Hx as [Hx|Hx]; apply elem_of_app; [by left|].
    right. by right.
Qed.

(** ** The collector keeps the pipelines well formed *)

Lemma pipe_ok_cases (pipe : list value) :
  pipe_ok pipe →
  (last pipe = Some VClosed)
  ∨ (∃ v, last pipe = Some v ∧ is_method v = true
          ∧ Forall (λ v, is_method v = true) pipe)
  ∨ (∃ v, last pipe = Some v ∧ is_plumbproperty v = true
          ∧ Forall (λ v, is_plumbproperty v = true) pipe).
Proof.
  intros (entries & Hh & [[-> Hne]| ->]).
  - right. apply last_is_Some in Hne as [v Hv].
    pose proof (last_Some_elem_of _ _ Hv) as Hin.
    destruct Hh as [Hh|Hh]; [left|right]; exists v; split_and!; try done;
      by apply (proj1 (Forall_forall _ _) Hh).
  - left. apply last_snoc.
Qed.

Lemma pipe_ok_close (pipe : list value) :
  pipe = [] ∨ pipe_ok pipe →
  pipe_ok (if last_is_closed pipe then pipe else pipe ++ [VClosed]).
Proof.
  intros [->|Hok].
  - simpl. exists []. split; [left; constructor|by right].
  - unfold last_is_closed.
    destruct (pipe_ok_cases pipe Hok) as [Hl|[(v & Hl & Hv & Hall)|(v & Hl & Hv & Hall)]];
      rewrite Hl.
    + done.
    + destruct v; try discriminate Hv. simpl.
      exists pipe. split; [by left|by right].
    + destruct v; try discriminate Hv. simpl.
      exists pipe. split; [by right|by right].
Qed.

Lemma pipe_ok_snoc_method (pipe : list value) (v : value) :
  Forall (λ v, is_method v = true) pipe → is_method v = true →
  pipe_ok (pipe ++ [v]).
Proof.
  intros Hall Hv. exists (pipe ++ [v]). split.
  - left. apply Forall_app. split; [done|by constructor].
  - left. split; [done|]. by destruct pipe.
Qed.

Lemma pipe_ok_snoc_plumbproperty (pipe : list value) (v : value) :
  Forall (λ v, is_plumbproperty v = true) pipe → is_plumbproperty v = true →
  pipe_ok (pipe ++ [v]).
Proof.
  intros Hall Hv. exists (pipe ++ [v]). split.
  - right. apply Forall_app. split; [done|by constructor].
  - left. split; [done|]. by destruct pipe.
Qed.

Lemma pipelines_ok_insert (ps : gmap string (list value)) (n : string)
    (pipe : list value) :
  pipelines_ok ps → pipe_ok pipe → pipelines_ok (<[n := pipe]> ps).
Proof. intros Hps Hp. by apply map_Forall_insert_2. Qed.

Lemma pipelines_ok_lookup (ps : gmap string (list value)) (n : string) :
  pipelines_ok ps →
  default [] (ps !! n) = [] ∨ pipe_ok (default [] (ps !! n)).
Proof.
  intros Hps. destruct (ps !! n) as [pipe|] eqn:Hn; simpl; [|by left].
  right. by apply (Hps n).
Qed.

Lemma pipeline_closed_ok (ps : gmap string (list value)) (n : string) :
  pipelines_ok ps →
  pipeline_closed ps n = Ok (last_is_closed (default [] (ps !! n))).
Proof.
  intros Hps. unfold pipeline_closed, last_is_closed.
  destruct (ps !! n) as [pipe|] eqn:Hn; simpl; [|reflexivity].
  destruct (pipe_ok_cases pipe (Hps n pipe Hn))
    as [Hl|[(v & Hl & _)|(v & Hl & _)]]; by rewrite Hl.
Qed.

Lemma getattr_cls_own (ct : gmap classid pyclass) (c : classid)
    (cls : pyclass) (n : string) (v : value) :
  cdict cls !! n = Some v → getattr_cls ct c cls n = Ok (class_bind c v).
Proof. intros H. unfold getattr_cls. by rewrite H. Qed.

Local Ltac view_frame :=
  let n := fresh "n" in
  let Hn := fresh "Hn" in
  intros n Hn; unfold view; simpl;
  rewrite ?lookup_insert_ne by done;
  repeat f_equal; apply bool_decide_ext; set_solver.

(** One round of the inner loop: it fails with a collision on its own
    name only, and otherwise keeps the pipelines well formed and leaves
    everything held about the other names as it was. *)
Lemma collect_attr_step (ct : gmap classid pyclass) (p : classid)
    (pk : pyclass) (m : string) (d : value) (st : cstate) :
  cdict pk !! m = Some d →
  pipelines_ok (st_pipelines st) →
  match collect_attr ct p pk m d st with
  | Ok st' => pipelines_ok (st_pipelines st')
              ∧ cenv (st_cls st') = cenv (st_cls st)
              ∧ ∀ n, n ≠ m → view n st' = view n st
  | Err e => e = PlumbingCollision m
  end.
Proof.
  intros Hd Hps. destruct st as [cls ps D]. simpl in Hps.
  pose proof (pipeline_closed_ok ps m Hps) as Hclosed.
  pose proof (pipelines_ok_lookup ps m Hps) as Hpipe.
  assert (Hplain : match (if last_is_closed (default [] (ps !! m))
                          then Err (PlumbingCollision m)
                          else Ok (CState cls ps D)) with
                   | Ok st' => pipelines_ok (st_pipelines st')
                        ∧ cenv (st_cls st') = cenv cls
                        ∧ ∀ n, n ≠ m → view n st' = view n (CState cls ps D)
                   | Err e => e = PlumbingCollision m
                   end).
  { destruct (last_is_closed _); [done|]. by split_and!. }
  destruct d; unfold collect_attr; simpl; rewrite ?Hclosed; simpl;
    try exact Hplain; clear Hplain.
  - (* plumbproperty *)
    destruct (last_is_closed _) eqn:Hc; [done|].
    destruct Hpipe as [->|Hok]; simpl.
    + split_and!; [|done|view_frame].
      apply pipelines_ok_insert; [done|].
      by apply (pipe_ok_snoc_plumbproperty []).
    + unfold last_is_closed in Hc.
      destruct (pipe_ok_cases _ Hok)
        as [Hl|[(v & Hl & Hv & Hall)|(v & Hl & Hv & Hall)]];
        rewrite Hl in Hc |- *; [done| |].
      * destruct v; try discriminate Hv. done.
      * rewrite Hv. simpl. split_and!; [|done|view_frame].
        apply pipelines_ok_insert; [done|].
        by apply pipe_ok_snoc_plumbproperty.
  - (* plumbmethod *)
    destruct (last_is_closed _) eqn:Hc; [done|].
    rewrite (getattr_cls_own _ _ _ _ _ Hd). simpl.
    destruct Hpipe as [->|Hok]; simpl.
    + split_and!; [|done|view_frame].
      apply pipelines_ok_insert; [done|].
      by apply (pipe_ok_snoc_method []).
    + unfold last_is_closed in Hc.
      destruct (pipe_ok_cases _ Hok)
        as [Hl|[(v & Hl & Hv & Hall)|(v & Hl & Hv & Hall)]];
        rewrite Hl in Hc |- *; [done| |].
      * destruct v; try discriminate Hv. simpl.
        split_and!; [|done|view_frame].
        apply pipelines_ok_insert; [done|].
        by apply pipe_ok_snoc_method.
      * by rewrite Hv.
  - (* default, extend and their base class *)
    pose proof (pipe_ok_close _ Hpipe) as Hclose.
    destruct m0; simpl.
    + split_and!; [by apply pipelines_ok_insert|done|view_frame].
    + destruct (decide (is_Some (cdict cls !! m))); simpl;
        (split_and!; [by apply pipelines_ok_insert|done|view_frame]).
    + destruct (decide (is_Some (cdict cls !! m) ∧ m ∉ D)); simpl; [done|].
      split_and!; [by apply pipelines_ok_insert|done|view_frame].
Qed.

Lemma view_eq_inv (n : string) (a b : cstate) :
  view n a = view n b →
  st_pipelines a !! n = st_pipelines b !! n
  ∧ cdict (st_cls a) !! n = cdict (st_cls b) !! n
  ∧ (n ∈ st_defaulted a ↔ n ∈ st_defaulted b).
Proof.
  unfold view. intros [= H1 H2 H3]. split_and!; [done|done|].
  split; intros Hx.
  - apply (bool_decide_eq_true_1 (n ∈ st_defaulted b)). rewrite <- H3.
    by apply bool_decide_eq_true_2.
  - apply (bool_decide_eq_true_1 (n ∈ st_defaulted a)). rewrite H3.
    by apply bool_decide_eq_true_2.
Qed.

(** Items of a plugin with other names than [n]. *)
Lemma collect_segment (ct : gmap classid pyclass) (p : classid)
    (pk : pyclass) (n : string) (l : list (string * value)) (st : cstate) :
  (∀ x, x ∈ l → x.1 ≠ n ∧ cdict pk !! x.1 = Some x.2) →
  pipelines_ok (st_pipelines st) →
  match for_each (λ nd, collect_attr ct p pk nd.1 nd.2) l st with
  | Ok st' => same_about n st st'
  | Err e => collides_elsewhere n e
  end.
Proof.
  intros Hl Hps.
  apply (for_each_hoare _ (same_about n st) (collides_elsewhere n));
    [by split_and!|].
  intros [m d] s Hx (Hs1 & Hs2 & Hs3). simpl.
  destruct (Hl _ Hx) as [Hne Hd]. simpl in Hne, Hd.
  pose proof (collect_attr_step ct p pk m d s Hd Hs1) as Hstep.
  destruct (collect_attr ct p pk m d s) as [s'|e].
  - destruct Hstep as (H1 & H2 & H3). split_and!; [done|congruence|].
    rewrite H3 by done. done.
  - exists m. by split.
Qed.

(** A plugin that declares nothing under the name [n]. *)
Lemma collect_plugin_other (ct : gmap classid pyclass) (p : classid)
    (pk : pyclass) (n : string) (st : cstate) :
  ct !! p = Some pk → cdict pk !! n = None →
  pipelines_ok (st_pipelines st) →
  match collect_plugin ct (VClass p) st with
  | Ok st' => same_about n st st'
  | Err e => collides_elsewhere n e
  end.
Proof.
  intros Hp Hn Hps. simpl. rewrite Hp.
  apply collect_segment; [|done].
  intros [m d] Hx. apply elem_of_map_to_list in Hx. simpl.
  split; [|done]. intros ->. congruence.
Qed.

(** A plugin that declares [v] under the name [n]: the loop over its
    items runs the round for [n] once, in a state that holds about [n]
    what the state before the plugin held, and nothing about [n]
    changes after that round. *)
Lemma collect_plugin_hit (ct : gmap classid pyclass) (p : classid)
    (pk : pyclass) (n : string) (v : value) (st : cstate) :
  ct !! p = Some pk → cdict pk !! n = Some v →
  pipelines_ok (st_pipelines st) →
  match collect_plugin ct (VClass p) st with
  | Ok st' =>
      ∃ s1 s2, same_about n st s1
        ∧ collect_attr ct p pk n v s1 = Ok s2
        ∧ same_about n s2 st'
  | Err e =>
      collides_elsewhere n e
      ∨ ∃ s1, same_about n st s1 ∧ collect_attr ct p pk n v s1 = Err e
  end.
Proof.
  intros Hp Hn Hps. simpl. rewrite Hp.
  destruct (map_to_list_split _ _ _ Hn) as (l1 & l2 & -> & Hl).
  rewrite for_each_app.
  pose proof (collect_segment ct p pk n l1 st) as H1.
  destruct (for_each _ l1 st) as [s1|e]; simpl.
  2:{ left. apply H1; [|done]. intros x Hx. apply Hl, elem_of_app. by left. }
  destruct H1 as (H1a & H1b & H1c); [|done|].
  { intros x Hx. apply Hl, elem_of_app. by left. }
  pose proof (collect_attr_step ct p pk n v s1 Hn H1a) as Hstep.
  destruct (collect_attr ct p pk n v s1) as [s2|e] eqn:Hhit; simpl.
  2:{ right. exists s1. by split_and!. }
  destruct Hstep as (H2a & H2b & _).
  pose proof (collect_segment ct p pk n l2 s2) as H2.
  destruct (for_each _ l2 s2) as [s3|e]; simpl.
  2:{ left. apply H2; [|done]. intros x Hx. apply Hl, elem_of_app. by right. }
  destruct H2 as (H3a & H3b & H3c); [|done|].
  { intros x Hx. apply Hl, elem_of_app. by right. }
  exists s1, s2. by split_and!.
Qed.

(** Any entry of [__pipeline__]: the pipelines stay well formed, and a
    failure is a collision or an entry without a class dictionary. *)
Lemma collect_plugin_ok (ct : gmap classid pyclass) (plugin : value)
    (st : cstate) :
  pipelines_ok (st_pipelines st) →
  match collect_plugin ct plugin st with
  | Ok st' => pipelines_ok (st_pipelines st')
              ∧ cenv (st_cls st') = cenv (st_cls st)
  | Err e => (∃ m, e = PlumbingCollision m) ∨ e = AttributeError "__dict__"
  end.
Proof.
  intros Hps. destruct plugin; simpl; try by right.
  destruct (ct !! c) as [pk|] eqn:Hc; [|by right].
  apply (for_each_hoare _
           (λ s, pipelines_ok (st_pipelines s)
                 ∧ cenv (st_cls s) = cenv (st_cls st))
           (λ e, (∃ m, e = PlumbingCollision m) ∨ e = AttributeError "__dict__"));
    [done|].
  intros [m d] s Hx [Hs1 Hs2]. apply elem_of_map_to_list in Hx. simpl.
  pose proof (collect_attr_step ct c pk m d s Hx Hs1) as Hstep.
  destruct (collect_attr ct c pk m d s).
  - destruct Hstep as (H1 & H2 & _). split; [done|congruence].
  - left. by exists m.
Qed.

Lemma collect_ok (ct : gmap classid pyclass) (plugins : list value)
    (cls : pyclass) :
  match collect ct plugins cls with
  | Ok st => pipelines_ok (st_pipelines st) ∧ cenv (st_cls st) = cenv cls
  | Err e => (∃ m, e = PlumbingCollision m) ∨ e = AttributeError "__dict__"
  end.
Proof.
  unfold collect.
  apply (for_each_hoare _
           (λ s, pipelines_ok (st_pipelines s) ∧ cenv (st_cls s) = cenv cls)
           (λ e, (∃ m, e = PlumbingCollision m) ∨ e = AttributeError "__dict__")).
  - split; [|done]. simpl. apply map_Forall_empty.
  - intros plugin s _ [Hs1 Hs2].
    pose proof (collect_plugin_ok ct plugin s Hs1) as H.
    destruct (collect_plugin ct plugin s); [|done].
    destruct H. split; [done|congruence].
Qed.

(** ** Methods and properties never share a pipeline *)

(** C4. Every pipeline the collector has built holds entries of one
    kind only, bound plumbing methods or plumbing properties, with at
    most the [CLOSED] marker after them; a [plumbmethod] declared where
    the pipeline ends in a [plumbproperty], and a [plumbproperty]
    declared where it ends in a plumbing method, raise
    [PlumbingCollision]. *)
Theorem pipelines_never_mix (ct : gmap classid pyclass)
    (plugins : list value) (cls : pyclass) (st : cstate) (name : string)
    (pipe : list value) :
  collect ct plugins cls = Ok st →
  st_pipelines st !! name = Some pipe →
  (∃ entries,
     (pipe = entries ∨ pipe = entries ++ [VClosed])
     ∧ (Forall (λ v, is_method v = true) entries
        ∨ Forall (λ v, is_plumbproperty v = true) entries))
  ∧ (∀ p pk f v, last pipe = Some v → is_plumbproperty v = true →
       collect_attr ct p pk name (VPlumbMethod f) st
       = Err (PlumbingCollision name))
  ∧ (∀ p pk fget fset fdel v, last pipe = Some v → is_method v = true →
       collect_attr ct p pk name (VPlumbProperty fget fset fdel) st
       = Err (PlumbingCollision name)).
Proof.
  intros Hc Hn. pose proof (collect_ok ct plugins cls) as Hok.
  rewrite Hc in Hok. destruct Hok as [Hps _].
  split_and!.
  - destruct (Hps name pipe Hn) as (entries & Hh & [[-> _]| ->]);
      exists entries; split; auto.
  - intros p pk f v Hl Hv. unfold collect_attr, pipeline_closed.
    rewrite Hn. simpl. rewrite Hl. simpl.
    destruct v; try discriminate Hv. reflexivity.
  - intros p pk g s d v Hl Hv. unfold collect_attr, pipeline_closed.
    rewrite Hn. simpl. rewrite Hl. simpl.
    destruct v; try discriminate Hv. reflexivity.
Qed.

(** ** Plain attributes of a plugin *)

(** C7, as the code has it. A plain attribute of a plugin is appended
    to no pipeline and installs nothing: the round for it leaves the
    class, the pipelines and the defaulted names as they are, unless
    the pipeline under its name has been closed by an earlier
    [default] or [extend], in which case it raises
    [PlumbingCollision]. *)
Theorem plain_attr_not_collected (ct : gmap classid pyclass) (p : classid)
    (pk : pyclass) (name : string) (decor : value) (st : cstate) :
  is_plain decor = true →
  pipelines_ok (st_pipelines st) →
  collect_attr ct p pk name decor st
  = if last_is_closed (default [] (st_pipelines st !! name))
    then Err (PlumbingCollision name)
    else Ok st.
Proof.
  intros Hplain Hps. pose proof (pipeline_closed_ok _ name Hps) as Hc.
  destruct decor; try discriminate Hplain;
    unfold collect_attr; rewrite Hc; simpl;
    by destruct (last_is_closed _).
Qed.

(** ** [default] and [extend] under one name *)

(** The round for a [default]: it never fails; it installs its value
    and flags the name if the class has no attribute of that name, and
    otherwise leaves both as they are. *)
Lemma collect_attr_default (ct : gmap classid pyclass) (p : classid)
    (pk : pyclass) (n : string) (x : value) (s1 : cstate) :
  ∃ s2, collect_attr ct p pk n (VMarker Default x) s1 = Ok s2
    ∧ (cdict (st_cls s1) !! n = None →
         cdict (st_cls s2) !! n = Some x ∧ n ∈ st_defaulted s2)
    ∧ (is_Some (cdict (st_cls s1) !! n) →
         cdict (st_cls s2) !! n = cdict (st_cls s1) !! n
         ∧ (n ∈ st_defaulted s2 ↔ n ∈ st_defaulted s1)).
Proof.
  destruct s1 as [cls ps D]. unfold collect_attr. simpl.
  destruct (decide (is_Some (cdict cls !! n))) as [Hs|Hs];
    eexists; (split; [reflexivity|]); simpl.
  - split; [|done]. intros H. rewrite H in Hs. by destruct Hs.
  - split.
    + intros _. rewrite lookup_insert_eq. split; [done|set_solver].
    + intros H. done.
Qed.

(** The round for an [extend]: it collides exactly when the class has
    an attribute of that name that no [default] has put there;
    otherwise it installs its value and clears the flag. *)
Lemma collect_attr_extend (ct : gmap classid pyclass) (p : classid)
    (pk : pyclass) (n : string) (y : value) (s1 : cstate) :
  match collect_attr ct p pk n (VMarker Extend y) s1 with
  | Ok s2 => cdict (st_cls s2) !! n = Some y ∧ n ∉ st_defaulted s2
             ∧ (cdict (st_cls s1) !! n = None ∨ n ∈ st_defaulted s1)
  | Err e => e = PlumbingCollision n
             ∧ is_Some (cdict (st_cls s1) !! n) ∧ n ∉ st_defaulted s1
  end.
Proof.
  destruct s1 as [cls ps D]. unfold collect_attr. simpl.
  destruct (decide (is_Some (cdict cls !! n) ∧ n ∉ D)) as [[H1 H2]|Hn]; simpl.
  - done.
  - rewrite lookup_insert_eq. split_and!; [done|set_solver|].
    destruct (cdict cls !! n) eqn:Hc; [|by left]. right.
    destruct (decide (n ∈ D)); [done|]. exfalso. apply Hn.
    split; [by eexists|done].
Qed.




(** ** Resolving the end point and installing the chain *)

Lemma getattr_cls_ext (ct : gmap classid pyclass) (c : classid)
    (a b : pyclass) (n : string) :
  cdict a !! n = cdict b !! n → cenv a = cenv b →
  getattr_cls ct c a n = getattr_cls ct c b n.
Proof.
  intros H1 [= H2 H3]. unfold getattr_cls. by rewrite H1, H2, H3.
Qed.

Lemma getattr_cls_err (ct : gmap classid pyclass) (c : classid)
    (cls : pyclass) (n : string) (e : exn) :
  getattr_cls ct c cls n = Err e →
  e = AttributeError n
  ∧ cdict cls !! n = None ∧ lookup_mro ct (cmro cls) n = None
  ∧ cmeta cls !! n = None.
Proof.
  unfold getattr_cls. destruct (cdict cls !! n); [done|].
  destruct (lookup_mro ct (cmro cls) n); [done|].
  destruct (cmeta cls !! n); [done|].
  by intros [= <-].
Qed.

(** A pipeline of plumbing entries always compiles. *)
Lemma entrance_total (ct : gmap classid pyclass) (name : string)
    (entries : list value) (end_point : value) :
  Forall (λ v, is_method v = true ∨ is_plumbproperty v = true) entries →
  ∃ e, entrance ct name (entries ++ [end_point]) = Ok e.
Proof.
  induction 1 as [|p entries Hp _ [nxt Hnxt]]; [by exists end_point|].
  change ((p :: entries) ++ [end_point]) with (p :: (entries ++ [end_point])).
  rewrite entrance_cons by (by destruct entries). rewrite Hnxt. simpl.
  destruct Hp as [Hp|Hp]; destruct p; try discriminate Hp; by eexists.
Qed.

Lemma homogeneous_plumbing (entries : list value) :
  homogeneous entries →
  Forall (λ v, is_method v = true ∨ is_plumbproperty v = true) entries.
Proof.
  intros [H|H]; eapply Forall_impl; try exact H; simpl; auto.
Qed.

Lemma install_closed (ct : gmap classid pyclass) (c : classid) (n : string)
    (entries : list value) (cls : pyclass) :
  install ct c n (entries ++ [VClosed]) cls
  = do end_point <- getattr_cls ct c cls n;
    do e <- entrance ct n (entries ++ [end_point]);
    Ok (setattr cls n e).
Proof.
  unfold install. rewrite last_snoc. simpl.
  by rewrite removelast_last.
Qed.

Lemma install_open (ct : gmap classid pyclass) (c : classid) (n : string)
    (pipe : list value) (v : value) (cls : pyclass) :
  last pipe = Some v → is_closed_marker v = false →
  install ct c n pipe cls
  = do end_point <- getattr_cls ct c cls n;
    do e <- entrance ct n (pipe ++ [end_point]);
    Ok (setattr cls n e).
Proof. intros Hl Hv. unfold install. by rewrite Hl, Hv. Qed.

(** Installing under the name [m] touches no other name. *)
Lemma install_frame (ct : gmap classid pyclass) (c : classid) (m : string)
    (pipe : list value) (cls cls' : pyclass) :
  install ct c m pipe cls = Ok cls' →
  cenv cls' = cenv cls ∧ ∀ n, n ≠ m → cdict cls' !! n = cdict cls !! n.
Proof.
  unfold install. destruct (last pipe); [|done].
  destruct (getattr_cls ct c cls m); [|done]. simpl.
  destruct (entrance _ _ _); [|done]. simpl. intros [= <-].
  split; [done|]. intros n Hn. simpl. by rewrite lookup_insert_ne.
Qed.

(** Installing a well-formed pipeline fails only for want of an end
    point. *)
Lemma install_err (ct : gmap classid pyclass) (c : classid) (m : string)
    (pipe : list value) (cls : pyclass) (e : exn) :
  pipe_ok pipe → install ct c m pipe cls = Err e →
  e = AttributeError m.
Proof.
  intros (entries & Hh & [[-> Hne]| ->]).
  - pose proof (last_is_Some entries) as [_ Hl]. destruct (Hl Hne) as [v Hv].
    assert (Hnc : is_closed_marker v = false).
    { pose proof (last_Some_elem_of _ _ Hv) as Hin.
      pose proof (homogeneous_plumbing _ Hh) as Hall.
      pose proof (proj1 (Forall_forall _ _) Hall v Hin) as [H|H];
        destruct v; try discriminate H; reflexivity. }
    rewrite (install_open _ _ _ _ _ _ Hv Hnc).
    destruct (getattr_cls ct c cls m) as [ep|e'] eqn:Hg; simpl.
    + destruct (entrance_total ct m entries ep (homogeneous_plumbing _ Hh))
        as [x Hx]. by rewrite Hx.
    + intros [= <-]. by apply getattr_cls_err in Hg as (-> & _).
  - rewrite install_closed.
    destruct (getattr_cls ct c cls m) as [ep|e'] eqn:Hg; simpl.
    + destruct (entrance_total ct m entries ep (homogeneous_plumbing _ Hh))
        as [x Hx]. by rewrite Hx.
    + intros [= <-]. by apply getattr_cls_err in Hg as (-> & _).
Qed.

(** The items of [pipelines] with other names than [n]. *)
Lemma install_segment (ct : gmap classid pyclass) (c : classid) (n : string)
    (l : list (string * list value)) (cls cls' : pyclass) :
  (∀ x, x ∈ l → x.1 ≠ n) →
  for_each (λ np, install ct c np.1 np.2) l cls = Ok cls' →
  cenv cls' = cenv cls ∧ cdict cls' !! n = cdict cls !! n.
Proof.
  intros Hl Hrun.
  pose proof (for_each_hoare (λ np, install ct c np.1 np.2)
                (λ k, cenv k = cenv cls ∧ cdict k !! n = cdict cls !! n)
                (λ _, True) l cls) as H.
  rewrite Hrun in H. apply H; [done|].
  intros [m pipe] k Hx [Hk1 Hk2]. simpl.
  destruct (install ct c m pipe k) as [k'|] eqn:Hi; [|done].
  apply install_frame in Hi as [Hi1 Hi2]. split; [congruence|].
  rewrite Hi2; [done|]. intros ->. by apply (Hl _ Hx).
Qed.

(** The second loop installs, under each collected name, the entrance
    to its pipeline followed by the end point the class resolved when
    the name's turn came; no other round touches that name. *)
Lemma install_all_hit (ct : gmap classid pyclass) (c : classid)
    (ps : gmap string (list value)) (cls cls' : pyclass) (n : string)
    (pipe : list value) :
  ps !! n = Some pipe →
  install_all ct c ps cls = Ok cls' →
  ∃ cls1 cls2,
    cenv cls1 = cenv cls ∧ cdict cls1 !! n = cdict cls !! n
    ∧ install ct c n pipe cls1 = Ok cls2
    ∧ cdict cls' !! n = cdict cls2 !! n.
Proof.
  intros Hn. unfold install_all.
  destruct (map_to_list_split _ _ _ Hn) as (l1 & l2 & -> & Hl).
  rewrite for_each_app.
  destruct (for_each _ l1 cls) as [cls1|] eqn:H1; [|done]. simpl.
  destruct (install ct c n pipe cls1) as [cls2|] eqn:H2; [|done]. simpl.
  intros H3. exists cls1, cls2.
  apply install_segment with (n := n) in H1 as [H1a H1b].
  2:{ intros x Hx. apply Hl, elem_of_app. by left. }
  apply install_segment with (n := n) in H3 as [H3a H3b].
  2:{ intros x Hx. apply Hl, elem_of_app. by right. }
  by split_and!.
Qed.

Lemma install_err_missing (ct : gmap classid pyclass) (c : classid)
    (m : string) (pipe : list value) (cls : pyclass) (e : exn) :
  pipe_ok pipe → install ct c m pipe cls = Err e →
  e = AttributeError m
  ∧ getattr_cls ct c cls m = Err (AttributeError m).
Proof.
  intros Hok Hi. pose proof (install_err ct c m pipe cls e Hok Hi) as ->.
  split; [done|].
  destruct (getattr_cls ct c cls m) as [ep|e'] eqn:Hg.
  - exfalso. destruct Hok as (entries & Hh & [[-> Hne]| ->]).
    + unfold install in Hi. destruct (last entries) as [l|]; [|done].
      assert (∃ x, entrance ct m
                     ((if is_closed_marker l then removelast entries
                       else entries) ++ [ep]) = Ok x) as [x Hx].
      { pose proof (homogeneous_plumbing _ Hh) as Hall.
        destruct (is_closed_marker l); apply entrance_total; [|done].
        apply Forall_forall. intros v Hv.
        apply (proj1 (Forall_forall _ _) Hall).
        destruct entries as [|v0 entries] using rev_ind; [done|].
        rewrite removelast_last in Hv. apply elem_of_app. by left. }
      rewrite Hg in Hi. simpl in Hi. by rewrite Hx in Hi.
    + rewrite install_closed, Hg in Hi. simpl in Hi.
      destruct (entrance_total ct m entries ep (homogeneous_plumbing _ Hh))
        as [x Hx]. by rewrite Hx in Hi.
  - by apply getattr_cls_err in Hg as (-> & _).
Qed.

(** A collected name without an end point makes the second loop fail
    with the [AttributeError] of a collected name that had no end
    point when the loop began. *)
Lemma install_all_missing (ct : gmap classid pyclass) (c : classid)
    (l : list (string * list value)) (cls : pyclass) (n : string)
    (pipe : list value) (e0 : exn) :
  NoDup l.*1 →
  (∀ x, x ∈ l → pipe_ok x.2) → (n, pipe) ∈ l →
  getattr_cls ct c cls n = Err e0 →
  ∃ m q, (m, q) ∈ l
    ∧ getattr_cls ct c cls m = Err (AttributeError m)
    ∧ for_each (λ np, install ct c np.1 np.2) l cls = Err (AttributeError m).
Proof.
  revert cls. induction l as [|[m q] l IH]; intros cls Hnd Hok Hin Hget.
  - by apply elem_of_nil in Hin.
  - rewrite fmap_cons in Hnd. apply NoDup_cons in Hnd as [Hm Hnd].
    simpl. destruct (install ct c m q cls) as [cls1|e] eqn:Hi; simpl.
    + assert (Hne : m ≠ n).
      { intros ->. unfold install in Hi. destruct (last q); [|done].
        by rewrite Hget in Hi. }
      apply install_frame in Hi as [Hi1 Hi2].
      destruct (IH cls1) as (m' & q' & Hin' & Hg' & Hrun); try done.
      * intros x Hx. apply Hok. by right.
      * apply elem_of_cons in Hin as [[= ]|Hin]; [congruence|done].
      * rewrite (getattr_cls_ext ct c cls1 cls n); [done| |done].
        by apply Hi2.
      * exists m', q'. split_and!; [by right| |done].
        rewrite <- (getattr_cls_ext ct c cls1 cls m'); [done| |done].
        apply Hi2. intros ->. apply Hm.
        apply list_elem_of_fmap. by exists (m, q').
    + destruct (install_err_missing ct c m q cls e) as [-> Hg]; [|done|].
      { apply (Hok (m, q)). by left. }
      exists m, q. split_and!; [by left|done|done].
Qed.

(** C3. When the collector is through and the class resolves no
    attribute for a collected name, in its own dictionary, through its
    bases or through its metaclass, [Plumber.__init__] itself fails
    with the [AttributeError] of a collected name that has no end
    point: no class is handed out whose chain would miss its end point
    at call time. *)
Theorem missing_endpoint_fails_at_build_time (ct : gmap classid pyclass)
    (c : classid) (cls : pyclass) (p : value) (plugins : list value)
    (cls1 : pyclass) (st : cstate) (n : string) (pipe : list value)
    (e : exn) :
  cdict cls !! "__pipeline__" = Some p → p ≠ VNone →
  declare_pipeline ct c cls = Ok (plugins, cls1) →
  collect ct plugins cls1 = Ok st →
  st_pipelines st !! n = Some pipe →
  getattr_cls ct c (st_cls st) n = Err e →
  ∃ m q, st_pipelines st !! m = Some q
    ∧ getattr_cls ct c (st_cls st) m = Err (AttributeError m)
    ∧ Plumber_init ct c cls = Err (AttributeError m).
Proof.
  intros Hp Hnone Hdecl Hcoll Hn Hget.
  assert (Hinit : Plumber_init ct c cls
                  = install_all ct c (st_pipelines st) (st_cls st)).
  { unfold Plumber_init. rewrite Hp, Hdecl. cbn [bind fst snd].
    unfold compose. rewrite Hcoll. cbn [bind].
    destruct p; try reflexivity. done. }
  rewrite Hinit. unfold install_all.
  pose proof (collect_ok ct plugins cls1) as Hok. rewrite Hcoll in Hok.
  destruct Hok as [Hps _].
  destruct (install_all_missing ct c (map_to_list (st_pipelines st))
              (st_cls st) n pipe e) as (m & q & Hin & Hg & Hrun); try done.
  - apply NoDup_fst_map_to_list.
  - intros [m q] Hx. apply elem_of_map_to_list in Hx. by apply (Hps m).
  - by apply elem_of_map_to_list.
  - exists m, q. split_and!; [by apply elem_of_map_to_list|done|done].
Qed.

(** ** Rounds of the collector, seen from one name *)

Lemma same_about_refl (n : string) (st : cstate) :
  pipelines_ok (st_pipelines st) → same_about n st st.
Proof. by intros H; split_and!. Qed.

Lemma same_about_trans (n : string) (a b d : cstate) :
  same_about n a b → same_about n b d → same_about n a d.
Proof.
  intros (_ & H2 & H3) (K1 & K2 & K3). split_and!; [done|congruence|congruence].
Qed.

Lemma last_is_closed_close (pipe : list value) :
  last_is_closed (if last_is_closed pipe then pipe else pipe ++ [VClosed])
  = true.
Proof.
  destruct (last_is_closed pipe) eqn:H; [done|].
  unfold last_is_closed. by rewrite last_snoc.
Qed.

(** The round for a marker, when it goes through, leaves the pipeline
    of its name closed. *)
Lemma collect_attr_marker_pipeline (ct : gmap classid pyclass) (p : classid)
    (pk : pyclass) (n : string) (m : marker) (x : value) (s1 s2 : cstate) :
  collect_attr ct p pk n (VMarker m x) s1 = Ok s2 →
  st_pipelines s2 !! n
  = Some (if last_is_closed (default [] (st_pipelines s1 !! n))
          then default [] (st_pipelines s1 !! n)
          else default [] (st_pipelines s1 !! n) ++ [VClosed]).
Proof.
  destruct s1 as [cls ps D]. unfold collect_attr. simpl.
  destruct m.
  - intros [= <-]. simpl. by rewrite lookup_insert_eq.
  - destruct (decide _); intros [= <-]; simpl; by rewrite lookup_insert_eq.
  - destruct (decide _); [done|]. intros [= <-]. simpl.
    by rewrite lookup_insert_eq.
Qed.

(** Behind a closed pipeline every declaration that is no marker
    collides. *)
Lemma collect_attr_behind_closed (ct : gmap classid pyclass) (p : classid)
    (pk : pyclass) (n : string) (d : value) (s1 : cstate) (pipe : list value) :
  is_marker d = false →
  st_pipelines s1 !! n = Some pipe → last_is_closed pipe = true →
  collect_attr ct p pk n d s1 = Err (PlumbingCollision n).
Proof.
  intros Hd Hn Hc.
  assert (Hcl : pipeline_closed (st_pipelines s1) n = Ok true).
  { unfold pipeline_closed. rewrite Hn. unfold last_is_closed in Hc.
    destruct (last pipe); [by rewrite Hc|done]. }
  unfold collect_attr. destruct d; try discriminate Hd; by rewrite Hcl.
Qed.

(** ** The first plugin is the outermost layer *)

(** The round for a [plumbmethod]: when it goes through it has added
    the method, bound to the plugin, at the end of the pipeline and has
    left the class alone. *)
Lemma collect_attr_plumbmethod (ct : gmap classid pyclass) (p : classid)
    (pk : pyclass) (n : string) (f : value) (s1 s2 : cstate) :
  cdict pk !! n = Some (VPlumbMethod f) →
  collect_attr ct p pk n (VPlumbMethod f) s1 = Ok s2 →
  st_pipelines s2 !! n
  = Some (default [] (st_pipelines s1 !! n) ++ [VMethod f (VClass p)])
  ∧ cdict (st_cls s2) !! n = cdict (st_cls s1) !! n.
Proof.
  intros Hd. destruct s1 as [cls ps D]. unfold collect_attr. simpl.
  destruct (pipeline_closed ps n) as [[|]|]; simpl; try done.
  destruct (match last (default [] (ps !! n)) with
            | Some v => is_plumbproperty v
            | None => false
            end); [done|].
  rewrite (getattr_cls_own _ _ _ _ _ Hd). simpl. intros [= <-]. simpl.
  by rewrite lookup_insert_eq.
Qed.

(** A method layer at the head of a pipe becomes the closure around
    the entrance to the rest of the pipe. *)
Lemma entrance_outermost (ct : gmap classid pyclass) (name : string)
    (f plb : value) (rest : list value) (e : value) :
  rest ≠ [] →
  entrance ct name (VMethod f plb :: rest) = Ok e →
  ∃ _next, entrance ct name rest = Ok _next
    ∧ e = VEntrance (VMethod f plb) _next
            (merge_doc (doc_of ct) _next [VMethod f plb]).
Proof.
  intros Hne. rewrite entrance_cons by done.
  destruct (entrance ct name rest) as [nxt|]; [|done]. simpl.
  intros [= <-]. by exists nxt.
Qed.

(** Calling the closure runs the layer's function on the plugin it is
    bound to, the entrance to the rest, the instance and the
    arguments. *)
Lemma call_entrance (E : fid → body) (fuel : nat) (f plb _next self : value)
    (d : option string) (args : list value) :
  call E (S (S fuel)) (VEntrance (VMethod f plb) _next d) (self :: args)
  = call E fuel f (plb :: _next :: self :: args).
Proof. reflexivity. Qed.

Lemma collect_attr_plain_ok (ct : gmap classid pyclass) (p : classid)
    (pk : pyclass) (n : string) (d : value) (s1 s2 : cstate) :
  is_plain d = true → collect_attr ct p pk n d s1 = Ok s2 → s2 = s1.
Proof.
  intros Hd. unfold collect_attr.
  destruct d; try discriminate Hd;
    (destruct (pipeline_closed (st_pipelines s1) n) as [[|]|]; simpl;
     [done|by intros [= <-]|done]).
Qed.

Lemma default_pipe_of (l : list value) : default [] (pipe_of l) = l.
Proof. by destruct l. Qed.

Lemma pipe_of_snoc (l : list value) (v : value) :
  pipe_of (l ++ [v]) = Some (l ++ [v]).
Proof. by destruct l. Qed.

Lemma plumbed_methods_cons (ct : gmap classid pyclass) (n : string)
    (v : value) (l : list value) :
  plumbed_methods ct n (v :: l)
  = match plumbed_method ct n v with
    | Some m => m :: plumbed_methods ct n l
    | None => plumbed_methods ct n l
    end.
Proof. reflexivity. Qed.

Lemma plumbed_methods_are_methods (ct : gmap classid pyclass) (n : string)
    (plugins : list value) :
  Forall (λ v, is_method v = true) (plumbed_methods ct n plugins).
Proof.
  induction plugins as [|v l IH]; [constructor|].
  rewrite plumbed_methods_cons.
  destruct (plumbed_method ct n v) as [m|] eqn:Hm; [|done].
  constructor; [|done]. unfold plumbed_method in Hm.
  destruct v; try done. destruct (ct !! c); [|done].
  destruct (cdict p !! n) as [[]|]; try done. by injection Hm as <-.
Qed.

Lemma plumbed_method_declared (ct : gmap classid pyclass) (n : string)
    (p : classid) (pk : pyclass) (d : value) (l : list value) :
  ct !! p = Some pk → cdict pk !! n = Some d →
  match plumbed_method ct n (VClass p) with
  | Some m => m :: l
  | None => l
  end = method_of p d ++ l.
Proof.
  intros Hp Hd. unfold plumbed_method. rewrite Hp, Hd. by destruct d.
Qed.

(** The last entry of a list of methods, or of properties, is not the
    [CLOSED] marker. *)
Lemma last_of_methods (l : list value) :
  Forall (λ v, is_method v = true) l →
  match last l with
  | Some v => is_method v = true
  | None => l = []
  end.
Proof.
  intros Hl. destruct (last l) as [v|] eqn:H.
  - exact (proj1 (Forall_forall _ _) Hl v (last_Some_elem_of _ _ H)).
  - by apply last_None.
Qed.

Lemma last_of_properties (l : list value) :
  Forall (λ v, is_plumbproperty v = true) l → l ≠ [] →
  ∃ v, last l = Some v ∧ is_plumbproperty v = true.
Proof.
  intros Hl Hne. destruct (last l) as [v|] eqn:H.
  - exists v. split; [done|].
    exact (proj1 (Forall_forall _ _) Hl v (last_Some_elem_of _ _ H)).
  - by apply last_None in H.
Qed.

Lemma methods_open (l : list value) :
  Forall (λ v, is_method v = true) l → last_is_closed l = false.
Proof.
  intros Hl. pose proof (last_of_methods l Hl) as H. unfold last_is_closed.
  destruct (last l) as [v|]; [by destruct v|done].
Qed.

Lemma properties_open (l : list value) :
  Forall (λ v, is_plumbproperty v = true) l → last_is_closed l = false.
Proof.
  intros Hl. unfold last_is_closed. destruct (last l) as [v|] eqn:H; [|done].
  pose proof (proj1 (Forall_forall _ _) Hl v (last_Some_elem_of _ _ H)) as Hv.
  by destruct v.
Qed.

Lemma closed_is_closed (l : list value) : last_is_closed (l ++ [VClosed]) = true.
Proof. unfold last_is_closed. by rewrite last_snoc. Qed.

(** One round of the inner loop on the name it is about: a marker
    closes the pipeline, a plain attribute leaves it, a [plumbmethod]
    adds its bound method behind the methods collected so far, and a
    [plumbproperty] goes through only where no method was collected. *)
Lemma collect_attr_state (ct : gmap classid pyclass) (p : classid)
    (pk : pyclass) (n : string) (d : value) (s1 s2 : cstate)
    (l : list value) :
  Forall (λ v, is_method v = true) l →
  cdict pk !! n = Some d →
  pipeline_state (st_pipelines s1 !! n) l →
  collect_attr ct p pk n d s1 = Ok s2 →
  pipeline_state (st_pipelines s2 !! n) (l ++ method_of p d).
Proof.
  intros Hl Hd Hst Hrun.
  destruct (is_marker d) eqn:Hm.
  { destruct d; try discriminate Hm. cbn [method_of]. rewrite app_nil_r.
    apply collect_attr_marker_pipeline in Hrun. rewrite Hrun.
    destruct Hst as [[Ho|Ho]|[-> (entries & Hne & Hall & [Ho|Ho])]];
      rewrite Ho.
    - rewrite default_pipe_of, (methods_open l Hl). left. by right.
    - cbn [from_option id]. rewrite closed_is_closed. left. by right.
    - cbn [from_option id]. rewrite (properties_open _ Hall).
      right. split; [done|]. exists entries. split_and!; [done|done|by right].
    - cbn [from_option id]. rewrite closed_is_closed.
      right. split; [done|]. exists entries. split_and!; [done|done|by right]. }
  assert (Hclosed : ∀ q, st_pipelines s1 !! n = Some (q ++ [VClosed]) → False).
  { intros q Hq.
    rewrite (collect_attr_behind_closed ct p pk n d s1 _ Hm Hq
               (closed_is_closed q)) in Hrun. discriminate Hrun. }
  destruct Hst as [[Ho|Ho]|[-> (entries & Hne & Hall & [Ho|Ho])]];
    try (exfalso; exact (Hclosed _ Ho)).
  - (* methods, open *)
    destruct (is_plain d) eqn:Hp.
    { apply (collect_attr_plain_ok _ _ _ _ _ _ _ Hp) in Hrun as ->.
      replace (method_of p d) with (@nil value) by (by destruct d).
      rewrite app_nil_r. left. by left. }
    destruct d; try discriminate Hp; try discriminate Hm.
    + (* plumbproperty *)
      cbn [method_of]. rewrite app_nil_r.
      destruct s1 as [cls ps D]. simpl in Ho.
      unfold collect_attr, pipeline_closed in Hrun. simpl in Hrun.
      rewrite Ho in Hrun. pose proof (last_of_methods l Hl) as Hlast.
      destruct l as [|x l'].
      * simpl in Hrun. injection Hrun as <-. simpl.
        rewrite lookup_insert_eq. right. split; [done|].
        eexists. split_and!; [|repeat constructor|by left]; done.
      * exfalso. cbn [pipe_of from_option id] in Hrun.
        destruct (last (x :: l')) as [v|]; [|done].
        destruct v; try discriminate Hlast; simpl in Hrun; discriminate Hrun.
    + (* plumbmethod *)
      apply (collect_attr_plumbmethod _ _ _ _ _ _ _ Hd) in Hrun as [Hrun _].
      rewrite Hrun, Ho, default_pipe_of. cbn [method_of]. left. left.
      symmetry. apply pipe_of_snoc.
  - (* properties, open *)
    destruct (is_plain d) eqn:Hp.
    { apply (collect_attr_plain_ok _ _ _ _ _ _ _ Hp) in Hrun as ->.
      replace (method_of p d) with (@nil value) by (by destruct d).
      right. split; [done|]. exists entries. split_and!; [done|done|by left]. }
    destruct (last_of_properties entries Hall Hne) as (v & Hv & Hvp).
    destruct s1 as [cls ps D]. simpl in Ho.
    unfold collect_attr, pipeline_closed in Hrun. simpl in Hrun.
    rewrite Ho in Hrun. cbn [from_option id] in Hrun. rewrite Hv in Hrun.
    destruct d as [| | | | | | | | |g s e|f| | | | | |];
      try discriminate Hp; try discriminate Hm.
    + cbn [method_of]. destruct v; try discriminate Hvp. simpl in Hrun.
      injection Hrun as <-. simpl. rewrite lookup_insert_eq.
      right. split; [done|]. exists (entries ++ [VPlumbProperty g s e]).
      split_and!; [by destruct entries| |by left].
      apply Forall_app. split; [done|]. by repeat constructor.
    + exfalso. destruct v; try discriminate Hvp. simpl in Hrun.
      discriminate Hrun.
Qed.

(** One round of the outer loop, seen from the name [n]. *)
Lemma collect_plugin_state (ct : gmap classid pyclass) (n : string)
    (v : value) (s s' : cstate) (l : list value) :
  pipelines_ok (st_pipelines s) →
  Forall (λ v, is_method v = true) l →
  pipeline_state (st_pipelines s !! n) l →
  collect_plugin ct v s = Ok s' →
  pipeline_state (st_pipelines s' !! n)
    (l ++ plumbed_methods ct n [v]).
Proof.
  intros Hps Hl Hst Hv.
  destruct v as [| | | |p| | | | | | | | | | | |]; try discriminate Hv.
  destruct (ct !! p) as [pk|] eqn:Hp.
  2:{ unfold collect_plugin in Hv. rewrite Hp in Hv. discriminate Hv. }
  rewrite plumbed_methods_cons.
  destruct (cdict pk !! n) as [d|] eqn:Hd.
  - rewrite (plumbed_method_declared ct n p pk d _ Hp Hd), app_nil_r.
    pose proof (collect_plugin_hit ct p pk n d s Hp Hd Hps) as H.
    rewrite Hv in H.
    destruct H as (s1 & s2 & (_ & _ & Hv1) & Hhit & (_ & _ & Hv2)).
    apply view_eq_inv in Hv1 as (Hp1 & _ & _).
    apply view_eq_inv in Hv2 as (Hp2 & _ & _).
    rewrite Hp2. apply (collect_attr_state ct p pk n d s1 s2 l Hl Hd);
      [by rewrite Hp1|exact Hhit].
  - unfold plumbed_method. rewrite Hp, Hd.
    change (plumbed_methods ct n []) with (@nil value). rewrite app_nil_r.
    pose proof (collect_plugin_other ct p pk n s Hp Hd Hps) as H.
    rewrite Hv in H. destruct H as (_ & _ & Hv1).
    apply view_eq_inv in Hv1 as (Hp1 & _ & _). by rewrite Hp1.
Qed.

(** The first loop, seen from the name [n]: the bound methods the
    plugins plumb under [n] are collected in the order of the
    plugins. *)
Lemma collect_state (ct : gmap classid pyclass) (n : string)
    (plugins : list value) (s st : cstate) (l : list value) :
  pipelines_ok (st_pipelines s) →
  Forall (λ v, is_method v = true) l →
  pipeline_state (st_pipelines s !! n) l →
  for_each (collect_plugin ct) plugins s = Ok st →
  pipeline_state (st_pipelines st !! n) (l ++ plumbed_methods ct n plugins).
Proof.
  revert s l. induction plugins as [|v plugins IH]; intros s l Hps Hl Hst Hrun.
  - simpl in Hrun. injection Hrun as <-.
    change (plumbed_methods ct n []) with (@nil value). by rewrite app_nil_r.
  - cbn [for_each] in Hrun.
    destruct (collect_plugin ct v s) as [s'|] eqn:Hv; [|done].
    cbn [bind] in Hrun.
    pose proof (collect_plugin_ok ct v s Hps) as Hok. rewrite Hv in Hok.
    destruct Hok as [Hps' _].
    pose proof (collect_plugin_state ct n v s s' l Hps Hl Hst Hv) as Hst'.
    assert (Hl' : Forall (λ v, is_method v = true)
                    (l ++ plumbed_methods ct n [v])).
    { apply Forall_app. split; [done|apply plumbed_methods_are_methods]. }
    pose proof (IH s' _ Hps' Hl' Hst' Hrun) as H.
    rewrite <- app_assoc in H.
    replace (plumbed_methods ct n [v] ++ plumbed_methods ct n plugins)
      with (plumbed_methods ct n (v :: plugins)) in H; [done|].
    rewrite !plumbed_methods_cons.
    change (plumbed_methods ct n []) with (@nil value).
    by destruct (plumbed_method ct n v).
Qed.

(** The first loop over plugins that, under [n], plumb a method or
    declare nothing of what the collector acts on: the class's entry
    for [n] stays. *)
Lemma collect_plumbed (ct : gmap classid pyclass) (n : string)
    (plugins : list value) (s st : cstate) :
  (∀ p pk, VClass p ∈ plugins → ct !! p = Some pk →
           plumbs_or_undeclared pk n) →
  pipelines_ok (st_pipelines s) →
  for_each (collect_plugin ct) plugins s = Ok st →
  cdict (st_cls st) !! n = cdict (st_cls s) !! n.
Proof.
  revert s. induction plugins as [|v plugins IH]; intros s Hun Hps Hrun.
  - simpl in Hrun. by injection Hrun as <-.
  - cbn [for_each] in Hrun.
    destruct (collect_plugin ct v s) as [s'|] eqn:Hv; [|done].
    cbn [bind] in Hrun.
    pose proof (collect_plugin_ok ct v s Hps) as Hok. rewrite Hv in Hok.
    destruct Hok as [Hps' _].
    destruct v as [| | | |p| | | | | | | | | | | |]; try discriminate Hv.
    destruct (ct !! p) as [pk|] eqn:Hp.
    2:{ unfold collect_plugin in Hv. by rewrite Hp in Hv. }
    assert (Hun' : ∀ q qk, VClass q ∈ plugins → ct !! q = Some qk →
                           plumbs_or_undeclared qk n).
    { intros q qk Hq. apply Hun. by right. }
    rewrite (IH s' Hun' Hps' Hrun).
    destruct (cdict pk !! n) as [d|] eqn:Hd.
    + pose proof (collect_plugin_hit ct p pk n d s Hp Hd Hps) as H.
      rewrite Hv in H.
      destruct H as (s1 & s2 & (_ & _ & Hv1) & Hhit & (_ & _ & Hv2)).
      apply view_eq_inv in Hv1 as (_ & Hc1 & _).
      apply view_eq_inv in Hv2 as (_ & Hc2 & _).
      rewrite Hc2, <- Hc1.
      destruct (Hun p pk ltac:(left) Hp d Hd) as [Hplain|[f ->]].
      * by apply (collect_attr_plain_ok _ _ _ _ _ _ _ Hplain) in Hhit as ->.
      * by apply (collect_attr_plumbmethod _ _ _ _ _ _ _ Hd) in Hhit as [_ ->].
    + pose proof (collect_plugin_other ct p pk n s Hp Hd Hps) as H.
      rewrite Hv in H. destruct H as (_ & _ & Hv1).
      by apply view_eq_inv in Hv1 as (_ & Hc1 & _).
Qed.

(** C1. The plugin earliest in the order that plumbs a method under
    the name [n] is the outermost layer. For any [__pipeline__], let
    [A]'s bound method be the first of the bound methods that the
    plugins plumb under [n], in pipeline order, and [later] the rest.
    When [Plumber.__init__] succeeds, the composed class carries under
    [n] the closure around [A]'s method whose [_next] is the compiled
    chain of [later] followed by the end point, the end point being
    what the class resolves for [n] when the first loop is through;
    where no plugin declares [n] with [default] or [extend], that is
    what the class resolved for [n] to begin with. A call of the
    closure runs the body of [A]'s function on the class [A], [_next],
    the instance and the arguments; what the call returns is what that
    body returns, so whether [_next] runs is up to it alone. For the
    order [A; B] the chain behind [A] is the closure around [B]'s
    method and the end point, and calling it runs [B]'s body on [B],
    the end point, the instance and the arguments. *)
Theorem first_plugin_is_outermost (ct : gmap classid pyclass)
    (c A : classid) (n : string) (fA p : value) (plugins later : list value)
    (cls cls1 cls' : pyclass) (st : cstate) :
  cdict cls !! "__pipeline__" = Some p → p ≠ VNone →
  declare_pipeline ct c cls = Ok (plugins, cls1) →
  collect ct plugins cls1 = Ok st →
  plumbed_methods ct n plugins = VMethod fA (VClass A) :: later →
  Plumber_init ct c cls = Ok cls' →
  ∃ end_point _next d,
    cdict cls' !! n = Some (VEntrance (VMethod fA (VClass A)) _next d)
    ∧ entrance ct n (later ++ [end_point]) = Ok _next
    ∧ getattr_cls ct c (st_cls st) n = Ok end_point
    ∧ ((∀ q qk, VClass q ∈ plugins → ct !! q = Some qk →
                plumbs_or_undeclared qk n) →
       getattr_cls ct c cls1 n = Ok end_point)
    ∧ (∀ E fuel f doc self args, fA = VFunction f doc →
         call E (S (S (S fuel)))
              (VEntrance (VMethod fA (VClass A)) _next d) (self :: args)
         = E f (call E fuel) (VClass A :: _next :: self :: args))
    ∧ (∀ B fB, later = [VMethod fB (VClass B)] →
         (∃ d', _next = VEntrance (VMethod fB (VClass B)) end_point d')
         ∧ ∀ E fuel g doc self args, fB = VFunction g doc →
             call E (S (S (S fuel))) _next (self :: args)
             = E g (call E fuel) (VClass B :: end_point :: self :: args)).
Proof.
  intros Hp Hnone Hdecl Hcoll Hplumbed.
  assert (Hinit : Plumber_init ct c cls
                  = install_all ct c (st_pipelines st) (st_cls st)).
  { unfold Plumber_init. rewrite Hp, Hdecl. cbn [bind fst snd].
    unfold compose. rewrite Hcoll. cbn [bind].
    destruct p; try reflexivity. done. }
  rewrite Hinit. intros Hinst.
  pose proof (collect_ok ct plugins cls1) as Hok.
  rewrite Hcoll in Hok. destruct Hok as [_ Henv].
  assert (Hstate : pipeline_state (st_pipelines st !! n)
                     (VMethod fA (VClass A) :: later)).
  { rewrite <- Hplumbed.
    apply (collect_state ct n plugins (CState cls1 ∅ ∅) st []);
      [apply map_Forall_empty|constructor| |exact Hcoll].
    left. left. apply lookup_empty. }
  destruct Hstate as [Hpipe|[Hnil _]]; [|discriminate Hnil].
  pose proof (plumbed_methods_are_methods ct n plugins) as Hall.
  rewrite Hplumbed in Hall.
  assert (∃ pipe, st_pipelines st !! n = Some pipe
            ∧ ∀ k, install ct c n pipe k
                   = do end_point <- getattr_cls ct c k n;
                     do e <- entrance ct n
                               ((VMethod fA (VClass A) :: later)
                                ++ [end_point]);
                     Ok (setattr k n e)) as (pipe & Hpipe' & Hinstall).
  { destruct Hpipe as [Ho|Ho]; eexists; (split; [exact Ho|]); intros k.
    - pose proof (last_of_methods _ Hall) as Hlast.
      destruct (last (VMethod fA (VClass A) :: later)) as [v|] eqn:Hl;
        [|discriminate Hlast].
      apply (install_open _ _ _ _ v _ Hl). by destruct v.
    - apply install_closed. }
  destruct (install_all_hit _ _ _ _ _ _ _ Hpipe' Hinst)
    as (k1 & k2 & Hm1 & Hc1 & Hi & Hfin).
  rewrite Hinstall in Hi.
  assert (Hget : getattr_cls ct c k1 n = getattr_cls ct c (st_cls st) n).
  { by apply getattr_cls_ext. }
  rewrite Hget in Hi.
  destruct (getattr_cls ct c (st_cls st) n) as [ep|] eqn:Hep; [|done].
  cbn [bind] in Hi.
  destruct (entrance ct n ((VMethod fA (VClass A) :: later) ++ [ep]))
    as [e|] eqn:He; [|done].
  cbn [bind] in Hi. injection Hi as <-.
  change ((VMethod fA (VClass A) :: later) ++ [ep])
    with (VMethod fA (VClass A) :: (later ++ [ep])) in He.
  apply entrance_outermost in He as (nxt & Hnxt & ->);
    [|by destruct later].
  exists ep, nxt. eexists. split_and!.
  - rewrite Hfin. simpl. apply lookup_insert_eq.
  - exact Hnxt.
  - reflexivity.
  - intros Hun. rewrite <- Hep. symmetry. apply getattr_cls_ext; [|done].
    exact (collect_plumbed ct n plugins (CState cls1 ∅ ∅) st Hun
             (map_Forall_empty _) Hcoll).
  - intros E fuel f doc self args ->. reflexivity.
  - intros B fB ->. simpl in Hnxt. injection Hnxt as <-.
    split; [by eexists|].
    intros E fuel g doc self args ->. reflexivity.
Qed.

(** ** The properties at work on concrete classes *)

Lemma first_plugin_is_outermost_witness :
  ∃ cls' end_point _next d,
    Plumber_init chain3_table "C" chain3_cls = Ok cls'
    ∧ cdict cls' !! "m" = Some (VEntrance (VMethod a_m (VClass "A")) _next d)
    ∧ entrance chain3_table "m"
        [VMethod b_m (VClass "B"); VMethod d_m (VClass "D"); end_point]
      = Ok _next
    ∧ end_point = VFunction "m" (Some "E")
    ∧ call chain_env 3 (VEntrance (VMethod a_m (VClass "A")) _next d)
           [VObject "self" None]
      = chain_env "a_m" (call chain_env 0)
          [VClass "A"; _next; VObject "self" None].
Proof.
  assert (∃ pc, declare_pipeline chain3_table "C" chain3_cls = Ok pc)
    as [[plugins cls1] Hd].
  { eexists. vm_compute. reflexivity. }
  assert (∃ st, collect chain3_table plugins cls1 = Ok st) as [st Hc].
  { vm_compute in Hd. injection Hd as <- <-. eexists. vm_compute.
    reflexivity. }
  assert (∃ cls', Plumber_init chain3_table "C" chain3_cls = Ok cls')
    as [cls' Hinit].
  { eexists. vm_compute. reflexivity. }
  assert (Hplugins : plugins = [VClass "A"; VClass "B"; VClass "D"]).
  { vm_compute in Hd. by injection Hd as <- _. }
  destruct (first_plugin_is_outermost chain3_table "C" "A" "m" a_m
              (VTuple [VClass "A"; VClass "B"; VClass "D"]) plugins
              [VMethod b_m (VClass "B"); VMethod d_m (VClass "D")]
              chain3_cls cls1 cls' st)
    as (ep & nxt & d & H1 & H2 & H3 & _ & H4 & _).
  - vm_compute. reflexivity.
  - discriminate.
  - exact Hd.
  - exact Hc.
  - rewrite Hplugins. vm_compute. reflexivity.
  - exact Hinit.
  - exists cls', ep, nxt, d. split_and!; [exact Hinit|exact H1|exact H2| |].
    + vm_compute in Hd. injection Hd as <- <-. vm_compute in Hc.
      injection Hc as <-. vm_compute in H3. injection H3 as <-. reflexivity.
    + apply (H4 chain_env 0 "a_m" (Some "A")). reflexivity.
Defined.

(** The chain of the three plugins at work: each layer was called with
    its own plugin, outermost first, and the end point last. *)
Lemma three_layer_call :
  ∃ cls' e,
    Plumber_init chain3_table "C" chain3_cls = Ok cls'
    ∧ cdict cls' !! "m" = Some e
    ∧ call chain_env 10 e [VObject "self" None]
      = Ret (VTuple [VStr "a_m"; VClass "A";
               VTuple [VStr "b_m"; VClass "B";
                 VTuple [VStr "d_m"; VClass "D";
                   VTuple [VObject "self" None]]]]).
Proof.
  assert (∃ cls', Plumber_init chain3_table "C" chain3_cls = Ok cls')
    as [cls' Hinit].
  { eexists. vm_compute. reflexivity. }
  assert (∃ e, cdict cls' !! "m" = Some e) as [e He].
  { vm_compute in Hinit. injection Hinit as <-. eexists. vm_compute.
    reflexivity. }
  exists cls', e. split_and!; [exact Hinit|exact He|].
  vm_compute in Hinit. injection Hinit as <-.
  vm_compute in He. injection He as <-.
  vm_compute. reflexivity.
Qed.


Lemma missing_endpoint_fails_at_build_time_witness :
  Plumber_init chain_table "C" endless_cls = Err (AttributeError "m").
Proof.
  assert (∃ pc, declare_pipeline chain_table "C" endless_cls = Ok pc)
    as [[plugins cls1] Hd].
  { eexists. vm_compute. reflexivity. }
  assert (∃ st, collect chain_table plugins cls1 = Ok st) as [st Hc].
  { vm_compute in Hd. injection Hd as <- <-. eexists. vm_compute. reflexivity. }
  assert (∃ pipe, st_pipelines st !! "m" = Some pipe) as [pipe Hp].
  { vm_compute in Hd. injection Hd as <- <-. vm_compute in Hc.
    injection Hc as <-. eexists. vm_compute. reflexivity. }
  assert (∃ e, getattr_cls chain_table "C" (st_cls st) "m" = Err e)
    as [e He].
  { vm_compute in Hd. injection Hd as <- <-. vm_compute in Hc.
    injection Hc as <-. eexists. vm_compute. reflexivity. }
  destruct (missing_endpoint_fails_at_build_time chain_table "C" endless_cls
              (VTuple [VClass "A"; VClass "B"]) plugins cls1 st "m" pipe e)
    as (m & _ & _ & _ & Hinit);
    [reflexivity|discriminate|exact Hd|exact Hc|exact Hp|exact He|].
  pose proof Hinit as Hm. vm_compute in Hm. injection Hm as <-.
  exact Hinit.
Defined.

(** A plugin that plumbs [__call__] on a class that neither defines nor
    inherits it: the metaclass provides the end point, and the class is
    composed. *)
Lemma metaclass_provides_the_end_point :
  cdict call_cls !! "__call__" = None
  ∧ lookup_mro call_table (cmro call_cls) "__call__" = None
  ∧ ∃ cls', Plumber_init call_table "C" call_cls = Ok cls'
      ∧ cdict cls' !! "__call__"
        = Some (VEntrance (VMethod (VFunction "p_call" None) (VClass "A"))
                  (VObject "type.__call__" None) None).
Proof.
  split; [reflexivity|]. split; [reflexivity|].
  eexists. split; vm_compute; reflexivity.
Qed.

Lemma pipelines_never_mix_witness :
  ∃ st pipe,
    collect property_table [VClass "A"] two_plugin_cls = Ok st
    ∧ st_pipelines st !! "x" = Some pipe
    ∧ collect_attr property_table "B" x_method_plugin "x"
        (VPlumbMethod (VFunction "x" None)) st
      = Err (PlumbingCollision "x").
Proof.
  assert (∃ st, collect property_table [VClass "A"] two_plugin_cls = Ok st)
    as [st Hc].
  { eexists. vm_compute. reflexivity. }
  assert (∃ pipe, st_pipelines st !! "x" = Some pipe) as [pipe Hp].
  { vm_compute in Hc. injection Hc as <-. eexists. vm_compute. reflexivity. }
  exists st, pipe. split_and!; [done|done|].
  destruct (pipelines_never_mix property_table [VClass "A"] two_plugin_cls
              st "x" pipe Hc Hp) as (_ & Hmeth & _).
  apply (Hmeth "B" x_method_plugin (VFunction "x" None)
           (VPlumbProperty (VFunction "get" None) VNone VNone));
    [|reflexivity].
  vm_compute in Hc. injection Hc as <-. vm_compute in Hp.
  injection Hp as <-. reflexivity.
Defined.

Lemma plain_attr_not_collected_witness :
  let st := CState two_plugin_cls ∅ ∅ in
  collect_attr default_plain_table "B" plain_plugin "foo" (VInt 3) st = Ok st.
Proof.
  intros st.
  rewrite (plain_attr_not_collected default_plain_table "B" plain_plugin
             "foo" (VInt 3) st eq_refl); [reflexivity|].
  apply map_Forall_empty.
Defined.

(** The plain attribute [foo] of the second plugin collides with the
    [default] of the first one; without it the class is composed. *)
Lemma plain_attr_collides_behind_default :
  is_plain (VInt 3) = true
  ∧ cdict plain_plugin !! "foo" = Some (VInt 3)
  ∧ Plumber_init default_plain_table "C" two_plugin_cls
    = Err (PlumbingCollision "foo")
  ∧ ∃ cls', Plumber_init default_empty_table "C" two_plugin_cls = Ok cls'.
Proof.
  split_and!; [reflexivity|reflexivity|vm_compute; reflexivity|].
  eexists. vm_compute. reflexivity.
Qed.

(** * Further properties of the code *)

(** ** [merge_doc] *)

Lemma merge_doc_omap {A} (doc : A → option string) (first : A)
    (args : list A) :
  merge_doc doc first args = join_docs (omap doc (first :: args)).
Proof.
  revert first. induction args as [|a rest IH]; intros first.
  - cbn [merge_doc omap list_omap]. destruct (doc first); reflexivity.
  - cbn [merge_doc]. rewrite IH.
    change (omap doc (first :: a :: rest))
      with (match doc first with
            | Some d => d :: omap doc (a :: rest)
            | None => omap doc (a :: rest)
            end).
    destruct (doc first) as [d|]; cbn [join_docs];
      destruct (join_docs (omap doc (a :: rest))); reflexivity.
Qed.

Lemma join_docs_None (ds : list string) : join_docs ds = None ↔ ds = [].
Proof.
  destruct ds as [|d ds]; [done|]. cbn [join_docs].
  by destruct (join_docs ds).
Qed.

(** X1. [merge_doc] joins, in the order of its arguments, the texts of
    the arguments that have one, with the line separator between them;
    it yields [None] exactly when no argument has a text. *)
Theorem merge_doc_join {A} (doc : A → option string) (first : A)
    (args : list A) :
  merge_doc doc first args = join_docs (omap doc (first :: args))
  ∧ (merge_doc doc first args = None
     ↔ Forall (λ a, doc a = None) (first :: args)).
Proof.
  split; [apply merge_doc_omap|].
  rewrite merge_doc_omap, join_docs_None.
  generalize (first :: args). intros l. induction l as [|a l IH].
  - split; [constructor|done].
  - change (omap doc (a :: l))
      with (match doc a with
            | Some d => d :: omap doc l
            | None => omap doc l
            end).
    destruct (doc a) as [d|] eqn:Ha.
    + split; [done|]. intros H. apply Forall_cons in H as [H _]. congruence.
    + rewrite IH. split; [by constructor|].
      intros H. by apply Forall_cons in H as [_ H].
Qed.

(** ** [entrance] *)

Lemma is_plumbing_spec (v : value) :
  is_plumbing v = true ↔ is_method v = true ∨ is_plumbproperty v = true.
Proof. unfold is_plumbing. apply orb_true_iff. Qed.

Lemma entrance_bad_layer (ct : gmap classid pyclass) (name : string)
    (layers : list value) (end_point : value) :
  Exists (λ v, is_plumbing v = false) layers →
  entrance ct name (layers ++ [end_point]) = Err TypeError.
Proof.
  induction layers as [|p layers IH]; intros Hex.
  - by apply Exists_nil in Hex.
  - change ((p :: layers) ++ [end_point])
      with (p :: (layers ++ [end_point])).
    rewrite entrance_cons by (by destruct layers).
    destruct (decide (Exists (λ v, is_plumbing v = false) layers)) as [Hl|Hl].
    + by rewrite (IH Hl).
    + apply Exists_cons in Hex as [Hp|Hex]; [|done].
      apply not_Exists_Forall in Hl; [|intros v; apply _].
      destruct (entrance_total ct name layers end_point) as [nxt Hnxt].
      { eapply Forall_impl; [exact Hl|]. simpl. intros v Hv.
        apply is_plumbing_spec. by destruct (is_plumbing v). }
      rewrite Hnxt. simpl. by destruct p.
Qed.

(** X2. [entrance] on a pipe of layers and an end point succeeds
    exactly when every layer is a bound method or a [plumbproperty];
    otherwise it raises [TypeError], whatever the end point is. On a
    single entry it hands the entry back, and on an empty pipe it fails
    with [IndexError]. *)
Theorem entrance_succeeds_iff (ct : gmap classid pyclass) (name : string)
    (layers : list value) (end_point : value) :
  ((∃ e, entrance ct name (layers ++ [end_point]) = Ok e)
   ↔ Forall (λ v, is_plumbing v = true) layers)
  ∧ (¬ Forall (λ v, is_plumbing v = true) layers →
     entrance ct name (layers ++ [end_point]) = Err TypeError)
  ∧ entrance ct name [end_point] = Ok end_point
  ∧ entrance ct name [] = Err IndexError.
Proof.
  assert (Hbad : ¬ Forall (λ v, is_plumbing v = true) layers →
                 entrance ct name (layers ++ [end_point]) = Err TypeError).
  { intros Hn. apply entrance_bad_layer.
    apply not_Forall_Exists in Hn; [|intros v; apply _].
    eapply Exists_impl; [exact Hn|]. simpl. intros v Hv.
    by destruct (is_plumbing v). }
  split_and!; [|done|reflexivity|reflexivity].
  split.
  - intros [e He].
    destruct (decide (Forall (λ v, is_plumbing v = true) layers)) as [H|H];
      [done|]. rewrite (Hbad H) in He. discriminate He.
  - intros Hall. apply entrance_total.
    eapply Forall_impl; [exact Hall|]. simpl. intros v.
    apply is_plumbing_spec.
Qed.

Lemma entrance_succeeds_iff_witness :
  (∃ e, entrance ∅ "foo" (doc_layers ++ [doc_end_point]) = Ok e)
  ∧ entrance ∅ "foo" ([VInt 1] ++ [doc_end_point]) = Err TypeError.
Proof.
  split.
  - apply (proj1 (entrance_succeeds_iff ∅ "foo" doc_layers doc_end_point)).
    repeat constructor.
  - apply (entrance_succeeds_iff ∅ "foo" [VInt 1] doc_end_point).
    intros H. apply Forall_cons in H as [H _]. discriminate H.
Defined.

(** ** Calling a chain *)

(** X3. A chain of plumbing methods that all do nothing but call
    [_next] behaves as its end point: given three units of fuel for
    each layer, a call of the compiled chain is the call of the end
    point on the same instance and arguments. *)
Theorem pass_through_chain (ct : gmap classid pyclass) (E : fid → body)
    (name : string) (layers : list value) (end_point e : value) :
  Forall (passes_through E) layers →
  entrance ct name (layers ++ [end_point]) = Ok e →
  ∀ fuel self args,
    call E (3 * length layers + fuel) e (self :: args)
    = call E fuel end_point (self :: args).
Proof.
  intros Hall. revert e. induction Hall as [|p layers Hp _ IH]; intros e He.
  - injection He as <-. reflexivity.
  - change ((p :: layers) ++ [end_point])
      with (p :: (layers ++ [end_point])) in He.
    rewrite entrance_cons in He by (by destruct layers).
    destruct (entrance ct name (layers ++ [end_point])) as [nxt|]; [|done].
    destruct Hp as (f & d & plb & -> & Hf). simpl in He. injection He as <-.
    intros fuel self args.
    replace (3 * length (VMethod (VFunction f d) plb :: layers) + fuel)
      with (S (S (S (3 * length layers + fuel)))) by (simpl; lia).
    cbn [call]. rewrite Hf. by apply IH.
Qed.

Lemma pass_through_chain_witness :
  ∃ e, entrance ∅ "m" (doc_layers ++ [VFunction "m" None]) = Ok e
       ∧ call relay_env 7 e [VObject "self" None; VInt 1]
         = Ret (VTuple [VObject "self" None; VInt 1]).
Proof.
  assert (∃ e, entrance ∅ "m" (doc_layers ++ [VFunction "m" None]) = Ok e)
    as [e He] by (eexists; reflexivity).
  exists e. split; [exact He|].
  rewrite (pass_through_chain ∅ relay_env "m" doc_layers
             (VFunction "m" None) e) with (fuel := 1); [reflexivity| |exact He].
  repeat constructor; eexists _, _, _; (split; [reflexivity|]);
    intros k nxt rest; reflexivity.
Defined.

(** ** A plumbed property over an end point that is no property *)

(** X4. A pipe of one [plumbproperty] and an end point that is a
    function, a method or a piece of plain data, and so no property,
    compiles without an error; the failure comes when an accessor is
    called: each of the three raises [AttributeError], for the end
    point has no [fget], [fset] or [fdel] to pass on. *)
Theorem property_over_plain_endpoint (ct : gmap classid pyclass)
    (name : string) (fget fset fdel end_point : value) :
  lacks_accessors end_point = true →
  ∃ g s d,
    entrance ct name [VPlumbProperty fget fset fdel; end_point]
    = Ok (VProperty g s d)
    ∧ ∀ E fuel self val,
        call E (S fuel) g [self] = Raise (AttributeError "fget")
        ∧ call E (S fuel) s [self; val] = Raise (AttributeError "fset")
        ∧ call E (S fuel) d [self] = Raise (AttributeError "fdel").
Proof.
  intros H1. eexists _, _, _. split; [reflexivity|].
  intros E fuel self val.
  destruct end_point; try discriminate H1; split_and!; reflexivity.
Qed.

Lemma property_over_plain_endpoint_witness :
  ∃ g s d,
    entrance ∅ "x" [VPlumbProperty (VFunction "get" None) VNone VNone;
                    VInt 5]
    = Ok (VProperty g s d)
    ∧ call echo_env 1 g [VObject "self" None] = Raise (AttributeError "fget").
Proof.
  destruct (property_over_plain_endpoint ∅ "x" (VFunction "get" None)
              VNone VNone (VInt 5) eq_refl)
    as (g & s & d & He & Hcall).
  exists g, s, d. split; [exact He|].
  apply (Hcall echo_env 0 (VObject "self" None) VNone).
Defined.

(** The collector on one plugin that declares [dA] under [n]. *)
Lemma collect_one (ct : gmap classid pyclass) (A : classid) (kA : pyclass)
    (n : string) (dA : value) (cls : pyclass) :
  ct !! A = Some kA → cdict kA !! n = Some dA →
  match collect ct [VClass A] cls with
  | Ok st =>
      ∃ s1 s2, same_about n (CState cls ∅ ∅) s1
        ∧ collect_attr ct A kA n dA s1 = Ok s2
        ∧ same_about n s2 st
  | Err e =>
      collides_elsewhere n e
      ∨ ∃ s1, same_about n (CState cls ∅ ∅) s1
              ∧ collect_attr ct A kA n dA s1 = Err e
  end.
Proof.
  intros HA HnA. unfold collect. cbn [for_each].
  pose proof (collect_plugin_hit ct A kA n dA (CState cls ∅ ∅) HA HnA
                (map_Forall_empty _)) as H.
  destruct (collect_plugin ct (VClass A) (CState cls ∅ ∅)); cbn [bind]; done.
Qed.

(** The collector on two plugins that declare [dA] and [dB] under
    [n]. *)
Lemma collect_two (ct : gmap classid pyclass) (A B : classid)
    (kA kB : pyclass) (n : string) (dA dB : value) (cls : pyclass) :
  ct !! A = Some kA → ct !! B = Some kB →
  cdict kA !! n = Some dA → cdict kB !! n = Some dB →
  match collect ct [VClass A; VClass B] cls with
  | Ok st =>
      ∃ s1 s2 t1 t2, same_about n (CState cls ∅ ∅) s1
        ∧ collect_attr ct A kA n dA s1 = Ok s2
        ∧ same_about n s2 t1
        ∧ collect_attr ct B kB n dB t1 = Ok t2
        ∧ same_about n t2 st
  | Err e =>
      collides_elsewhere n e
      ∨ (∃ s1, same_about n (CState cls ∅ ∅) s1
               ∧ collect_attr ct A kA n dA s1 = Err e)
      ∨ (∃ s1 s2 t1, same_about n (CState cls ∅ ∅) s1
               ∧ collect_attr ct A kA n dA s1 = Ok s2
               ∧ same_about n s2 t1
               ∧ collect_attr ct B kB n dB t1 = Err e)
  end.
Proof.
  intros HA HB HnA HnB. unfold collect. cbn [for_each].
  pose proof (collect_plugin_hit ct A kA n dA (CState cls ∅ ∅) HA HnA
                (map_Forall_empty _)) as H1.
  destruct (collect_plugin ct (VClass A) (CState cls ∅ ∅)) as [st1|e];
    cbn [bind].
  2:{ destruct H1 as [H1|H1]; [by left|right; by left]. }
  destruct H1 as (s1 & s2 & Hs1 & Hhit1 & Hs2).
  pose proof (collect_plugin_hit ct B kB n dB st1 HB HnB (proj1 Hs2)) as H2.
  destruct (collect_plugin ct (VClass B) st1) as [st2|e]; cbn [bind].
  - destruct H2 as (t1 & t2 & Ht1 & Hhit2 & Ht2).
    exists s1, s2, t1, t2. split_and!; try done.
    by apply (same_about_trans n s2 st1 t1).
  - destruct H2 as [H2|(t1 & Ht1 & Hhit2)]; [by left|].
    right. right. exists s1, s2, t1. split_and!; try done.
    by apply (same_about_trans n s2 st1 t1).
Qed.

Lemma same_about_inv (n : string) (a b : cstate) :
  same_about n a b →
  pipelines_ok (st_pipelines b)
  ∧ st_pipelines b !! n = st_pipelines a !! n
  ∧ cdict (st_cls b) !! n = cdict (st_cls a) !! n
  ∧ (n ∈ st_defaulted b ↔ n ∈ st_defaulted a).
Proof.
  intros (H1 & _ & H3). apply view_eq_inv in H3 as (K1 & K2 & K3). done.
Qed.

(** ** Precedence of the class, [default] and [extend] *)

(** X5. The first plugin that closes a name keeps it against a later
    [default]: on a class that does not define the name, after a
    [default] or an [extend] of the first plugin a [default] of the
    second is ignored and the class carries the first plugin's
    value. *)
Theorem later_default_is_ignored (ct : gmap classid pyclass) (A B : classid)
    (kA kB : pyclass) (n : string) (mA : marker) (x y : value)
    (cls : pyclass) :
  ct !! A = Some kA → ct !! B = Some kB →
  cdict kA !! n = Some (VMarker mA x) → mA ≠ Base →
  cdict kB !! n = Some (VMarker Default y) →
  cdict cls !! n = None →
  match collect ct [VClass A; VClass B] cls with
  | Ok st => cdict (st_cls st) !! n = Some x
  | Err e => ∃ m, m ≠ n ∧ e = PlumbingCollision m
  end.
Proof.
  intros HA HB HnA Hm HnB Hcls.
  pose proof (collect_two ct A B kA kB n _ _ cls HA HB HnA HnB) as H.
  assert (Hfirst : ∀ s1, same_about n (CState cls ∅ ∅) s1 →
            ∃ s2, collect_attr ct A kA n (VMarker mA x) s1 = Ok s2
                  ∧ cdict (st_cls s2) !! n = Some x).
  { intros s1 Hs1. apply same_about_inv in Hs1 as (_ & _ & Hc & _).
    simpl in Hc. rewrite Hcls in Hc. destruct mA; [done| |].
    - destruct (collect_attr_default ct A kA n x s1) as (s2 & Hs2 & Hn & _).
      exists s2. split; [done|]. by apply Hn.
    - pose proof (collect_attr_extend ct A kA n x s1) as He.
      destruct (collect_attr ct A kA n (VMarker Extend x) s1) as [s2|e].
      + exists s2. split; [done|]. apply He.
      + destruct He as (_ & Hs & _). rewrite Hc in Hs. by destruct Hs. }
  destruct (collect ct [VClass A; VClass B] cls) as [st|e].
  - destruct H as (s1 & s2 & t1 & t2 & Hs1 & Hhit1 & Ht1 & Hhit2 & Hst).
    destruct (Hfirst s1 Hs1) as (s2' & Hs2 & Hx).
    rewrite Hhit1 in Hs2. injection Hs2 as <-.
    apply same_about_inv in Ht1 as (_ & _ & Hc1 & _).
    destruct (collect_attr_default ct B kB n y t1) as (t2' & Ht2 & _ & Hsome).
    rewrite Hhit2 in Ht2. injection Ht2 as <-.
    destruct Hsome as [Hc2 _]; [rewrite Hc1, Hx; by eexists|].
    apply same_about_inv in Hst as (_ & _ & Hc3 & _). congruence.
  - destruct H as [H|[(s1 & Hs1 & Hhit1)|(s1 & s2 & t1 & _ & _ & _ & Hhit2)]];
      [done| |].
    + destruct (Hfirst s1 Hs1) as (s2 & Hs2 & _). congruence.
    + destruct (collect_attr_default ct B kB n y t1) as (t2 & Ht2 & _).
      congruence.
Qed.

Lemma later_default_is_ignored_witness :
  ∃ st, collect default_default_table [VClass "A"; VClass "B"] two_plugin_cls
        = Ok st
        ∧ cdict (st_cls st) !! "foo" = Some (VInt 1).
Proof.
  pose proof (later_default_is_ignored default_default_table "A" "B"
                default_plugin (PyClass {[ "foo" := default_ (VInt 5) ]} [] type_attrs)
                "foo" Default (VInt 1) (VInt 5) two_plugin_cls
                eq_refl eq_refl eq_refl ltac:(discriminate) eq_refl eq_refl)
    as H.
  destruct (collect default_default_table [VClass "A"; VClass "B"]
              two_plugin_cls) as [st|e] eqn:Hc.
  - exists st. split; [reflexivity|exact H].
  - exfalso. vm_compute in Hc. discriminate Hc.
Defined.

(** X6. What the class defines itself beats a [default]: the round
    for the [default] installs nothing and the class keeps its own
    value. *)
Theorem own_attribute_beats_default (ct : gmap classid pyclass) (A : classid)
    (kA : pyclass) (n : string) (x v : value) (cls : pyclass) :
  ct !! A = Some kA →
  cdict kA !! n = Some (VMarker Default x) →
  cdict cls !! n = Some v →
  match collect ct [VClass A] cls with
  | Ok st => cdict (st_cls st) !! n = Some v ∧ n ∉ st_defaulted st
  | Err e => ∃ m, m ≠ n ∧ e = PlumbingCollision m
  end.
Proof.
  intros HA HnA Hcls.
  pose proof (collect_one ct A kA n _ cls HA HnA) as H.
  destruct (collect ct [VClass A] cls) as [st|e].
  - destruct H as (s1 & s2 & Hs1 & Hhit & Hst).
    apply same_about_inv in Hs1 as (_ & _ & Hc1 & Hd1). simpl in Hc1, Hd1.
    destruct (collect_attr_default ct A kA n x s1) as (s2' & Hs2 & _ & Hsome).
    rewrite Hhit in Hs2. injection Hs2 as <-.
    destruct Hsome as [Hc2 Hd2]; [rewrite Hc1, Hcls; by eexists|].
    apply same_about_inv in Hst as (_ & _ & Hc3 & Hd3).
    split; [congruence|]. rewrite Hd3, Hd2, Hd1. set_solver.
  - destruct H as [H|(s1 & _ & Hhit)]; [done|].
    destruct (collect_attr_default ct A kA n x s1) as (s2 & Hs2 & _).
    congruence.
Qed.

Lemma own_attribute_beats_default_witness :
  ∃ st, collect default_only_table [VClass "A"] foo_cls = Ok st
        ∧ cdict (st_cls st) !! "foo" = Some (VInt 0).
Proof.
  pose proof (own_attribute_beats_default default_only_table "A"
                default_plugin "foo" (VInt 1) (VInt 0) foo_cls
                eq_refl eq_refl eq_refl) as H.
  destruct (collect default_only_table [VClass "A"] foo_cls) as [st|e] eqn:Hc.
  - exists st. split; [reflexivity|exact (proj1 H)].
  - exfalso. vm_compute in Hc. discriminate Hc.
Defined.

(** X7. An [extend] under a name the class defines itself is a
    collision: the collector raises [PlumbingCollision]. *)
Theorem extend_collides_with_own_attribute (ct : gmap classid pyclass)
    (A : classid) (kA : pyclass) (n : string) (x v : value) (cls : pyclass) :
  ct !! A = Some kA →
  cdict kA !! n = Some (VMarker Extend x) →
  cdict cls !! n = Some v →
  ∃ m, collect ct [VClass A] cls = Err (PlumbingCollision m).
Proof.
  intros HA HnA Hcls.
  pose proof (collect_one ct A kA n _ cls HA HnA) as H.
  destruct (collect ct [VClass A] cls) as [st|e].
  - exfalso. destruct H as (s1 & s2 & Hs1 & Hhit & _).
    apply same_about_inv in Hs1 as (_ & _ & Hc1 & Hd1). simpl in Hc1, Hd1.
    pose proof (collect_attr_extend ct A kA n x s1) as He.
    rewrite Hhit in He. destruct He as (_ & _ & [Hn|Hin]).
    + congruence.
    + apply Hd1 in Hin. set_solver.
  - destruct H as [(m & _ & ->)|(s1 & _ & Hhit)]; [by exists m|].
    pose proof (collect_attr_extend ct A kA n x s1) as He.
    rewrite Hhit in He. destruct He as (-> & _). by exists n.
Qed.

Lemma extend_collides_with_own_attribute_witness :
  ∃ m, collect extend_only_table [VClass "A"] foo_cls
       = Err (PlumbingCollision m).
Proof.
  apply (extend_collides_with_own_attribute extend_only_table "A"
           extend_plugin "foo" (VInt 2) (VInt 0) foo_cls);
    reflexivity.
Defined.

(** X8. Nothing follows a [default] or an [extend]: once a plugin has
    declared a marker under a name, any declaration of the next plugin
    under that name that is not itself a marker makes the collector
    raise [PlumbingCollision]. *)
Theorem closed_pipeline_rejects (ct : gmap classid pyclass) (A B : classid)
    (kA kB : pyclass) (n : string) (mA : marker) (x d : value)
    (cls : pyclass) :
  ct !! A = Some kA → ct !! B = Some kB →
  cdict kA !! n = Some (VMarker mA x) →
  cdict kB !! n = Some d → is_marker d = false →
  ∃ m, collect ct [VClass A; VClass B] cls = Err (PlumbingCollision m).
Proof.
  intros HA HB HnA HnB Hd.
  pose proof (collect_two ct A B kA kB n _ _ cls HA HB HnA HnB) as H.
  destruct (collect ct [VClass A; VClass B] cls) as [st|e].
  - exfalso.
    destruct H as (s1 & s2 & t1 & t2 & _ & Hhit1 & Ht1 & Hhit2 & _).
    apply collect_attr_marker_pipeline in Hhit1.
    apply same_about_inv in Ht1 as (_ & Hp & _). rewrite Hhit1 in Hp.
    rewrite (collect_attr_behind_closed ct B kB n d t1 _ Hd Hp
               (last_is_closed_close _)) in Hhit2.
    discriminate Hhit2.
  - destruct H as [(m & _ & ->)|[(s1 & Hs1 & Hhit1)
                                |(s1 & s2 & t1 & _ & _ & Ht1 & Hhit2)]].
    + by exists m.
    + pose proof (collect_attr_step ct A kA n _ s1 HnA (proj1 Hs1)) as Hst.
      rewrite Hhit1 in Hst. exists n. by rewrite Hst.
    + pose proof (collect_attr_step ct B kB n _ t1 HnB (proj1 Ht1)) as Hst.
      rewrite Hhit2 in Hst. exists n. by rewrite Hst.
Qed.

Lemma closed_pipeline_rejects_witness :
  ∃ m, collect default_method_table [VClass "A"; VClass "B"] two_plugin_cls
       = Err (PlumbingCollision m).
Proof.
  apply (closed_pipeline_rejects default_method_table "A" "B" default_plugin
           foo_method_plugin "foo" Default (VInt 1)
           (VPlumbMethod foo_method) two_plugin_cls);
    reflexivity.
Defined.

(** ** A plumbing method in front of a [default] *)

(** X9. A [plumbmethod] of the first plugin in front of a [default] of
    the second, on a class that does not define the name: when the two
    loops go through, the class carries the closure around the first
    plugin's bound method whose [_next] is the default value itself,
    as the class hands it out. *)
Theorem plumb_in_front_of_default (ct : gmap classid pyclass) (c A B : classid)
    (kA kB : pyclass) (n : string) (f x : value) (cls cls' : pyclass) :
  ct !! A = Some kA → ct !! B = Some kB →
  cdict kA !! n = Some (VPlumbMethod f) →
  cdict kB !! n = Some (VMarker Default x) →
  cdict cls !! n = None →
  compose ct c [VClass A; VClass B] cls = Ok cls' →
  ∃ d, cdict cls' !! n
       = Some (VEntrance (VMethod f (VClass A)) (class_bind c x) d).
Proof.
  intros HA HB HnA HnB Hcls. unfold compose.
  pose proof (collect_two ct A B kA kB n _ _ cls HA HB HnA HnB) as H.
  destruct (collect ct [VClass A; VClass B] cls) as [st|]; [|done].
  cbn [bind]. intros Hinst.
  destruct H as (s1 & s2 & t1 & t2 & Hs1 & Hhit1 & Ht1 & Hhit2 & Hst).
  apply same_about_inv in Hs1 as (_ & Hp1 & Hc1 & _). simpl in Hp1, Hc1.
  apply (collect_attr_plumbmethod _ _ _ _ _ _ _ HnA) in Hhit1 as [Hp2 Hc2].
  rewrite Hp1, lookup_empty in Hp2. simpl in Hp2.
  apply same_about_inv in Ht1 as (_ & Hp3 & Hc3 & _).
  pose proof (collect_attr_marker_pipeline _ _ _ _ _ _ _ _ Hhit2) as Hp4.
  rewrite Hp3, Hp2 in Hp4. simpl in Hp4.
  destruct (collect_attr_default ct B kB n x t1) as (t2' & Ht2 & Hnone & _).
  rewrite Hhit2 in Ht2. injection Ht2 as <-.
  destruct Hnone as [Hc4 _]; [congruence|].
  apply same_about_inv in Hst as (_ & Hp5 & Hc5 & _).
  rewrite Hp4 in Hp5. rewrite Hc4 in Hc5.
  destruct (install_all_hit _ _ _ _ _ _ _ Hp5 Hinst)
    as (cls1 & cls2 & _ & Hk1 & Hi & Hfin).
  rewrite (install_closed ct c n [VMethod f (VClass A)]) in Hi.
  rewrite (getattr_cls_own ct c cls1 n x) in Hi by congruence.
  simpl in Hi. injection Hi as <-.
  rewrite Hfin. simpl. eexists. apply lookup_insert_eq.
Qed.

Lemma plumb_in_front_of_default_witness :
  ∃ cls' d,
    compose method_default_table "C" [VClass "A"; VClass "B"] two_plugin_cls
    = Ok cls'
    ∧ cdict cls' !! "foo"
      = Some (VEntrance (VMethod foo_method (VClass "A")) (VInt 1) d).
Proof.
  assert (∃ cls', compose method_default_table "C" [VClass "A"; VClass "B"]
                    two_plugin_cls = Ok cls') as [cls' Hc].
  { eexists. vm_compute. reflexivity. }
  destruct (plumb_in_front_of_default method_default_table "C" "A" "B"
              foo_method_plugin default_plugin "foo" foo_method (VInt 1)
              two_plugin_cls cls') as [d Hd]; try reflexivity; [exact Hc|].
  exists cls', d. split; [exact Hc|exact Hd].
Defined.

(** ** What the two loops leave alone *)

Lemma collect_plugin_undeclared (ct : gmap classid pyclass) (p : classid)
    (pk : pyclass) (n : string) (st : cstate) :
  ct !! p = Some pk → undeclared pk n →
  pipelines_ok (st_pipelines st) →
  match collect_plugin ct (VClass p) st with
  | Ok st' => same_about n st st'
  | Err _ => True
  end.
Proof.
  intros Hp Hun Hps. destruct (cdict pk !! n) as [d|] eqn:Hn.
  - pose proof (collect_plugin_hit ct p pk n d st Hp Hn Hps) as H.
    destruct (collect_plugin ct (VClass p) st) as [st'|]; [|done].
    destruct H as (s1 & s2 & Hs1 & Hhit & Hs2).
    apply collect_attr_plain_ok in Hhit as ->; [|by apply Hun].
    by apply (same_about_trans n st s1 st').
  - pose proof (collect_plugin_other ct p pk n st Hp Hn Hps) as H.
    by destruct (collect_plugin ct (VClass p) st).
Qed.

Lemma collect_undeclared (ct : gmap classid pyclass) (plugins : list value)
    (cls : pyclass) (st : cstate) (n : string) :
  (∀ p pk, VClass p ∈ plugins → ct !! p = Some pk → undeclared pk n) →
  collect ct plugins cls = Ok st →
  same_about n (CState cls ∅ ∅) st.
Proof.
  intros Hun Hrun. unfold collect in Hrun.
  pose proof (for_each_hoare (collect_plugin ct)
                (same_about n (CState cls ∅ ∅)) (λ _, True) plugins
                (CState cls ∅ ∅)) as H.
  rewrite Hrun in H. apply H.
  - apply same_about_refl, map_Forall_empty.
  - intros plugin s Hin Hs.
    destruct plugin; try done. simpl.
    destruct (ct !! c) as [pk|] eqn:Hc; [|done].
    pose proof (collect_plugin_undeclared ct c pk n s Hc
                  (Hun c pk Hin Hc) (proj1 Hs)) as Hp.
    simpl in Hp. rewrite Hc in Hp.
    destruct (for_each _ _ s); [|done].
    by apply (same_about_trans n _ s).
Qed.

(** The two loops keep the class's entry for every name that no plugin
    declares with a marker, a [plumbmethod] or a [plumbproperty]. *)
Lemma compose_frame (ct : gmap classid pyclass) (c : classid)
    (plugins : list value) (cls cls' : pyclass) (n : string) :
  (∀ p pk, VClass p ∈ plugins → ct !! p = Some pk → undeclared pk n) →
  compose ct c plugins cls = Ok cls' →
  cdict cls' !! n = cdict cls !! n.
Proof.
  intros Hun. unfold compose.
  destruct (collect ct plugins cls) as [st|] eqn:Hcoll; [|done].
  cbn [bind]. intros Hinst.
  apply (collect_undeclared _ _ _ _ n Hun) in Hcoll.
  apply same_about_inv in Hcoll as (_ & Hp & Hc & _). simpl in Hp, Hc.
  rewrite lookup_empty in Hp.
  unfold install_all in Hinst.
  apply install_segment with (n := n) in Hinst as [_ Hfin]; [congruence|].
  intros [m q] Hx. apply elem_of_map_to_list in Hx. simpl.
  intros ->. congruence.
Qed.

Lemma declare_pipeline_frame (ct : gmap classid pyclass) (c : classid)
    (cls cls1 : pyclass) (plugins : list value) (n : string) :
  declare_pipeline ct c cls = Ok (plugins, cls1) →
  n ≠ "__doc__" → n ≠ "__pipeline__" →
  cdict cls1 !! n = cdict cls !! n.
Proof.
  unfold declare_pipeline.
  destruct (getattr_cls ct c cls "__pipeline__") as [p|]; [|done].
  cbn [bind]. intros [= _ <-] H1 H2. simpl.
  rewrite lookup_insert_ne by done.
  destruct p; simpl; rewrite ?lookup_insert_ne; done.
Qed.

(** X10. [Plumber.__init__] leaves alone what no plugin declares: an
    attribute of the class other than [__doc__] and [__pipeline__],
    under a name that no plugin of the pipeline declares with
    [default], [extend] or [plumb], is after a successful composition
    what it was before. *)
Theorem Plumber_init_leaves_other_names (ct : gmap classid pyclass)
    (c : classid) (cls cls1 cls' : pyclass) (plugins : list value)
    (n : string) :
  declare_pipeline ct c cls = Ok (plugins, cls1) →
  (∀ p pk, VClass p ∈ plugins → ct !! p = Some pk → undeclared pk n) →
  n ≠ "__doc__" → n ≠ "__pipeline__" →
  Plumber_init ct c cls = Ok cls' →
  cdict cls' !! n = cdict cls !! n.
Proof.
  intros Hd Hun H1 H2. unfold Plumber_init.
  destruct (cdict cls !! "__pipeline__") as [p|]; [|by intros [= <-]].
  assert (Hrun : compose ct c plugins cls1 = Ok cls' →
                 cdict cls' !! n = cdict cls !! n).
  { intros Hc. rewrite (compose_frame _ _ _ _ _ n Hun Hc).
    by apply (declare_pipeline_frame ct c cls cls1 plugins). }
  rewrite Hd. cbn [bind fst snd].
  destruct p; try exact Hrun. by intros [= <-].
Qed.

Lemma Plumber_init_leaves_other_names_witness :
  ∃ cls', Plumber_init chain_table "C"
            (setattr chain_cls "bar" (VInt 7)) = Ok cls'
          ∧ cdict cls' !! "bar" = Some (VInt 7).
Proof.
  assert (∃ cls', Plumber_init chain_table "C"
                    (setattr chain_cls "bar" (VInt 7)) = Ok cls')
    as [cls' Hinit].
  { eexists. vm_compute. reflexivity. }
  assert (∃ pc, declare_pipeline chain_table "C"
                  (setattr chain_cls "bar" (VInt 7)) = Ok pc)
    as [[plugins cls1] Hd].
  { eexists. vm_compute. reflexivity. }
  exists cls'. split; [exact Hinit|].
  rewrite (Plumber_init_leaves_other_names chain_table "C"
             (setattr chain_cls "bar" (VInt 7)) cls1 cls' plugins "bar"
             Hd); [reflexivity| |discriminate|discriminate|exact Hinit].
  vm_compute in Hd. injection Hd as <- _.
  intros p pk Hin Hp d Hdp.
  apply elem_of_cons in Hin as [[= ->]|Hin].
  { vm_compute in Hp. injection Hp as <-. vm_compute in Hdp. discriminate. }
  apply elem_of_cons in Hin as [[= ->]|Hin].
  { vm_compute in Hp. injection Hp as <-. vm_compute in Hdp. discriminate. }
  by apply elem_of_nil in Hin.
Defined.

(** ** The text of the composed class *)

(** X11. After a successful composition over the plugins of a tuple,
    none of which declares [__doc__] with a marker or for plumbing,
    the class's [__doc__] is its own text followed by the plugins'
    texts in reverse pipeline order, joined with the line separator
    and leaving out whoever has no text; it is [None] if nobody has
    one. *)
Theorem composed_class_doc (ct : gmap classid pyclass) (c : classid)
    (cls cls' : pyclass) (plugins : list value) :
  cdict cls !! "__pipeline__" = Some (VTuple plugins) →
  (∀ p pk, VClass p ∈ plugins → ct !! p = Some pk →
           undeclared pk "__doc__") →
  Plumber_init ct c cls = Ok cls' →
  cdict cls' !! "__doc__"
  = Some (doc_value
            (join_docs (omap id (class_doc cls
                                 :: (doc_of ct <$> reverse plugins))))).
Proof.
  intros Hp Hun. unfold Plumber_init, declare_pipeline.
  rewrite Hp, (getattr_cls_own _ _ _ _ _ Hp). cbn [bind class_bind fst snd].
  intros Hc. rewrite (compose_frame _ _ _ _ _ "__doc__" Hun Hc).
  simpl. rewrite lookup_insert_eq. do 2 f_equal.
  rewrite merge_doc_omap. f_equal.
  change (omap (doc_of_arg ct) (inl cls :: (inr <$> reverse plugins)))
    with (match class_doc cls with
          | Some d => d :: omap (doc_of_arg ct) (inr <$> reverse plugins)
          | None => omap (doc_of_arg ct) (inr <$> reverse plugins)
          end).
  change (omap id (class_doc cls :: (doc_of ct <$> reverse plugins)))
    with (match class_doc cls with
          | Some d => d :: omap id (doc_of ct <$> reverse plugins)
          | None => omap id (doc_of ct <$> reverse plugins)
          end).
  assert (omap (doc_of_arg ct) (inr <$> reverse plugins)
          = omap id (doc_of ct <$> reverse plugins)) as ->; [|done].
  clear Hc. induction (reverse plugins) as [|v l IH]; [done|].
  rewrite !fmap_cons.
  change (omap (doc_of_arg ct) (inr v :: (inr <$> l)))
    with (match doc_of ct v with
          | Some d => d :: omap (doc_of_arg ct) (inr <$> l)
          | None => omap (doc_of_arg ct) (inr <$> l)
          end).
  change (omap id (doc_of ct v :: (doc_of ct <$> l)))
    with (match doc_of ct v with
          | Some d => d :: omap id (doc_of ct <$> l)
          | None => omap id (doc_of ct <$> l)
          end).
  by rewrite IH.
Qed.

Lemma composed_class_doc_witness :
  ∃ cls', Plumber_init doc_table "C" doc_cls = Ok cls'
          ∧ cdict cls' !! "__doc__"
            = Some (VStr ("C" +:+ linesep +:+ "B" +:+ linesep +:+ "A")).
Proof.
  assert (∃ cls', Plumber_init doc_table "C" doc_cls = Ok cls')
    as [cls' Hinit].
  { eexists. vm_compute. reflexivity. }
  exists cls'. split; [exact Hinit|].
  assert (Hp : cdict doc_cls !! "__pipeline__"
               = Some (VTuple [VClass "A"; VClass "B"])).
  { vm_compute. reflexivity. }
  pose proof (composed_class_doc doc_table "C" doc_cls cls'
                [VClass "A"; VClass "B"] Hp) as H.
  etrans; [apply H; [|exact Hinit]|vm_compute; reflexivity].
  intros p pk Hin Hpk d Hdp.
  apply elem_of_cons in Hin as [[= ->]|Hin].
  { vm_compute in Hpk. injection Hpk as <-. vm_compute in Hdp.
    injection Hdp as <-. reflexivity. }
  apply elem_of_cons in Hin as [[= ->]|Hin].
  { vm_compute in Hpk. injection Hpk as <-. vm_compute in Hdp.
    injection Hdp as <-. reflexivity. }
  exfalso. exact (proj1 (elem_of_nil _) Hin).
Defined.

(** ** The failures of [Plumber.__init__] *)

Lemma Plumber_init_unfold (ct : gmap classid pyclass) (c : classid)
    (cls : pyclass) (p : value) :
  cdict cls !! "__pipeline__" = Some p → p ≠ VNone →
  Plumber_init ct c cls
  = do pc <- declare_pipeline ct c cls; compose ct c pc.1 pc.2.
Proof.
  intros Hp Hn. unfold Plumber_init. rewrite Hp. by destruct p.
Qed.






(** ** A pipeline that is a single plugin *)

(** X13. A [__pipeline__] that is a single plugin class is treated as
    the tuple of that one plugin: composing the class gives the same
    result, or the same failure, as with [__pipeline__ = (P,)]. *)
Theorem single_plugin_is_one_tuple (ct : gmap classid pyclass)
    (c P : classid) (cls : pyclass) :
  Plumber_init ct c (setattr cls "__pipeline__" (VClass P))
  = Plumber_init ct c (setattr cls "__pipeline__" (VTuple [VClass P])).
Proof.
  assert (Hset : setattr (setattr cls "__pipeline__" (VClass P))
                   "__pipeline__" (VTuple [VClass P])
                 = setattr cls "__pipeline__" (VTuple [VClass P])).
  { unfold setattr. simpl. f_equal. apply insert_insert_eq. }
  rewrite (Plumber_init_unfold ct c _ (VClass P)); [|apply lookup_insert_eq|done].
  rewrite (Plumber_init_unfold ct c _ (VTuple [VClass P]));
    [|apply lookup_insert_eq|done].
  unfold declare_pipeline.
  rewrite (getattr_cls_own ct c _ "__pipeline__" (VClass P))
    by apply lookup_insert_eq.
  rewrite (getattr_cls_own ct c _ "__pipeline__" (VTuple [VClass P]))
    by apply lookup_insert_eq.
  cbn [bind class_bind fst snd]. by rewrite Hset.
Qed.
